(** * genjwk: the JWK key-type generator and the runtime objects it emits

    A shallow embedding of [tools/cmd/genjwk/main.go].  The program is a
    code generator; two layers are embedded:

    - the generator itself (storage derivation, constant derivation, the
      text of the emitted [UnmarshalJSON]);
    - the behaviour of the methods it emits for one variant ([makePairs],
      [Get], [setNoLock], [Remove], [UnmarshalJSON], [MarshalJSON]), as
      functions of the schema ([KeyType], [Object], [Field]) and of the
      state of the emitted struct.

    Functions of other packages that the emitted code calls (the JSON
    token reader, the value encoder, base64, the [jwa] constructors) are
    fields of the class [GoRuntime]. *)

From stdpp Require Import gmap strings list fin_maps sorting pretty.
From Stdlib Require Import String Ascii.
From Stdlib Require Strings.Byte.

Open Scope string_scope.

(* ===================================================================== *)
(** ** Go strings *)
(* ===================================================================== *)

(** [strings.HasPrefix(s, p)]. *)
Definition HasPrefix (s p : string) : bool := String.prefix p s.

(** [strings.HasSuffix(s, x)]:
    [len(s) >= len(x) && s[len(s)-len(x):] == x]. *)
Definition HasSuffix (s x : string) : bool :=
  (String.length x <=? String.length s)%nat
  && String.eqb (substring (String.length s - String.length x)
                           (String.length x) s) x.

(** [strings.TrimPrefix(s, p)]. *)
Definition TrimPrefix (s p : string) : string :=
  if HasPrefix s p
  then substring (String.length p) (String.length s - String.length p) s
  else s.


(** The double-quote character, and a string wrapped in double quotes. *)
Definition dquote : string := String (ascii_of_nat 34) EmptyString.
Definition quoted (s : string) : string := dquote ++ s ++ dquote.

(** Go compares strings bytewise, as [String.leb] does; [String.le] is
    its reading as a relation. *)

(* ===================================================================== *)
(** ** The schema: [codegen.Field], [codegen.Object], [KeyType] *)
(* ===================================================================== *)

(** What the generator reads from a [codegen.Field], one record field
    per accessor it calls. *)
Record Field := mkField {
  f_Name_exported : string;        (* f.Name(true)  *)
  f_Name_unexported : string;      (* f.Name(false) *)
  f_Type : string;                 (* f.Type()      *)
  f_JSON : string;                 (* f.JSON()      *)
  f_Comment : string;              (* f.Comment()   *)
  f_IsRequired : bool;             (* f.IsRequired() *)
  f_is_std : bool;                 (* f.Bool(`is_std`) *)
  f_hasGet : bool;                 (* f.Bool(`hasGet`) *)
  f_hasAccept : bool;              (* f.Bool(`hasAccept`) *)
  f_noDeref : bool;                (* f.Bool(`noDeref`) *)
  f_getter_return_value : string;  (* f.String(`getter_return_value`) *)
  f_GetterMethod : string          (* f.GetterMethod(true) *)
}.

Record Object := mkObject {
  o_Name : string;                 (* obj.Name(true) *)
  o_Fields : list Field;           (* obj.Fields()   *)
  o_interface : string;            (* obj.String(`interface`) *)
  o_struct_name : string;          (* obj.String(`struct_name`) *)
  o_raw_key_type : option string   (* obj.MustString(`raw_key_type`), if set *)
}.

(** [type KeyType struct]. *)
Record KeyType := mkKeyType {
  Filename : string;
  Prefix : string;
  KeyType_expr : string;           (* the field [KeyType] *)
  Objects : list Object
}.

(* ===================================================================== *)
(** ** The generator: storage derivation *)
(* ===================================================================== *)

Definition IsPointer (f : Field) : bool := HasPrefix (f_Type f) "*".

Definition PointerElem (f : Field) : string := TrimPrefix (f_Type f) "*".

Definition fieldStorageTypeIsIndirect (s : string) : bool :=
  String.eqb s "KeyOperationList"
  || negb (HasPrefix s "*" || HasPrefix s "[]" || HasSuffix s "List").

Definition fieldStorageType (s : string) : string :=
  if fieldStorageTypeIsIndirect s then "*" ++ s else s.

(** The spec's vocabulary for semantic types: a reference/pointer type is
    spelled with a leading [*]; a list type is a slice ([[]T]) or a named
    type whose name ends in [List]. *)
Definition is_pointer_type (s : string) : bool := HasPrefix s "*".
Definition is_list_type (s : string) : bool :=
  HasPrefix s "[]" || HasSuffix s "List".

(* ===================================================================== *)
(** ** The generator: output statements and results *)
(* ===================================================================== *)

(** One call on [codegen.Output]: [o.L] starts a new line, [o.LL] leaves
    an empty line first, [o.R] continues the current line.  The argument
    is the text after formatting ([%s] spliced, [%%] written as [%]). *)
Inductive stmt :=
| L (s : string)
| LL (s : string)
| R (s : string).

(** The bytes a statement appends to the buffer behind the output. *)
Definition render_stmt (c : stmt) : string :=
  match c with
  | L s => String (ascii_of_nat 10) s
  | LL s => String (ascii_of_nat 10) (String (ascii_of_nat 10) s)
  | R s => s
  end.

Definition render (out : list stmt) : string :=
  String.concat "" (map render_stmt out).

(** How a Go call ends: a normal return, a returned [error], or a panic. *)
Inductive outcome (A : Type) :=
| Ok (a : A)
| Err (msg : string)
| Panic (msg : string).
Arguments Ok {A} a.
Arguments Err {A} msg.
Arguments Panic {A} msg.

(* ===================================================================== *)
(** ** The generator: constant derivation ([generateKeyType], first half) *)
(* ===================================================================== *)

(** [type Constant struct]. *)
Record Constant := mkConstant {
  c_Name : string;
  c_Value : string
}.

(** The body of the inner loop: [constants] and [seen] after one field. *)
Definition collectField (prefix : string)
    (st : list Constant * gset string) (f : Field)
    : list Constant * gset string :=
  if f_is_std f then st
  else
    let n := f_Name_exported f in
    if decide (n ∈ st.2) then st
    else ((st.1 ++ [mkConstant (prefix ++ n ++ "Key") (f_JSON f)])%list,
          {[ n ]} ∪ st.2).

(** The two nested [for ... range] loops over [kt.Objects] and
    [obj.Fields()]. *)
Definition collectConstants (kt : KeyType) : list Constant :=
  (fold_left
     (fun st obj => fold_left (collectField (Prefix kt)) (o_Fields obj) st)
     (Objects kt) ([], ∅)).1.

(** The fields the loops do not skip: those not marked standard, in the
    order of the loops. *)
Definition groupFields (kt : KeyType) : list Field :=
  List.filter (λ f, negb (f_is_std f)) (flat_map o_Fields (Objects kt)).

(** The constant appended for a field. *)
Definition constantOf (prefix : string) (f : Field) : Constant :=
  mkConstant (prefix ++ f_Name_exported f ++ "Key") (f_JSON f).

(** [f] is the first field of its display name among [fs]. *)
Definition sameName (f g : Field) : bool :=
  String.eqb (f_Name_exported g) (f_Name_exported f).

Definition firstOfName (fs : list Field) (f : Field) : Prop :=
  List.find (sameName f) fs = Some f.

(** The order [sort.Slice] is given: [constants[i].Name < constants[j].Name].
    The sort is modelled by a merge sort on the reflexive closure. *)
Definition const_le (a b : Constant) : Prop := String.le (c_Name a) (c_Name b).

#[global] Instance const_le_dec a b : Decision (const_le a b).
Proof. unfold const_le. apply _. Defined.

Definition sortConstants (cs : list Constant) : list Constant :=
  merge_sort const_le cs.

(** The constants in the order they are emitted. *)
Definition keyTypeConstants (kt : KeyType) : list Constant :=
  sortConstants (collectConstants kt).

(* ===================================================================== *)
(** ** Values held by an emitted object *)
(* ===================================================================== *)

(** A Go value as an [interface{}] sees it. *)
Inductive Value :=
| VNil                                   (* the nil interface *)
| VString (s : string)                   (* a string *)
| VBytes (b : list Byte.byte)            (* a non-nil []byte *)
| VNilOf (ty : string)                   (* a nil slice, map or pointer of type ty *)
| VData (ty : string) (repr : string)    (* a value of the named type ty *)
| VPtr (v : Value).                      (* a non-nil pointer to v *)

#[global] Instance byte_eq_dec : EqDecision Byte.byte := Byte.byte_eq_dec.

#[global] Instance Value_eq_dec : EqDecision Value.
Proof. solve_decision. Defined.

(** [x == nil] for a slot of pointer or slice type. *)
Definition is_nil (v : Value) : bool :=
  match v with VNil | VNilOf _ => true | _ => false end.

(** [*p]. *)
Definition deref (p : Value) : Value :=
  match p with VPtr v => v | _ => p end.


(** A token of the JSON reader, as the type switch of the emitted
    [UnmarshalJSON] tells them apart. *)
Inductive Token :=
| TDelim (c : ascii)                     (* json.Delim *)
| TString (s : string)                   (* string *)
| TOther (ty : string).                  (* bool, float64, json.Number, nil *)

(** The packages the emitted code calls into. *)
Class GoRuntime := {
  (** the value of a string constant of package [jwk], by identifier *)
  constVal : string → string;
  (** [value.(T)] succeeds *)
  type_assert : string → Value → bool;
  (** [%T] and [%s] of a value *)
  fmt_T : Value → string;
  fmt_s : Value → string;
  (** [<kt.KeyType>.String()] *)
  KeyType_String : string → string;
  (** [jwa.KeyAlgorithmFrom] *)
  KeyAlgorithmFrom : Value → Value;
  (** [v.String()] when [v] is a [fmt.Stringer] *)
  as_Stringer : Value → option string;
  (** the constants [ForSignature] and [ForEncryption] *)
  ForSignature : Value;
  ForEncryption : Value;
  (** the method [Get()] of a field type that has one *)
  method_Get : Value → Value;
  (** [var acceptor T; acceptor.Accept(value)]: the error, or [acceptor] *)
  method_Accept : string → Value → outcome Value;
  (** [base64.EncodeToString] *)
  base64_EncodeToString : list Byte.byte → string;
  (** [enc.Encode(v)] appends the JSON encoding of [v] and a newline to
      the buffer: the encoding, or the error *)
  enc_Encode : Value → outcome string;
  (** the token reader [*json.Decoder] and the calls that advance it *)
  Decoder : Type;
  NewDecoder : list Byte.byte → Decoder;
  dec_Token : Decoder → outcome Token * Decoder;
  ReadNextStringToken : Decoder → outcome string * Decoder;
  AssignNextStringToken : Decoder → outcome string * Decoder;
  AssignNextBytesToken : Decoder → outcome Value * Decoder;
  dec_Decode : string → Decoder → outcome Value * Decoder;
  (** [*json.Registry], its [Decode(dec, name)], and the package-level
      [registry] *)
  Registry : Type;
  reg_Decode : Registry → Decoder → string → outcome Value * Decoder;
  registry : Registry
}.

(** [json.DecodeCtx]: what [dc.Registry()] returns. *)
Record DecodeCtx `{GoRuntime} := mkDecodeCtx {
  dc_Registry : option Registry
}.
Arguments mkDecodeCtx {_} _.

(** The emitted struct: one slot per field, named [f.Name(false)] (a slot
    that is absent from the map is nil), [privateParams] (a map that may
    be nil) and [dc].  The lock [mu] is not modelled. *)
Record Obj `{GoRuntime} := mkObj {
  slots : gmap string Value;
  privateParams : option (gmap string Value);
  dc : option DecodeCtx
}.
Arguments mkObj {_} _ _ _.

(* ===================================================================== *)
(** ** The methods emitted for one variant *)
(* ===================================================================== *)

Section Emitted.
Context `{RT : GoRuntime}.
Variable kt : KeyType.
Variable obj : Object.

(** [KeyTypeKey = "kty"], emitted by [generateGenericHeaders]. *)
Definition KeyTypeKey : string := "kty".

(** The identifier of the constant a field is dispatched on:
    [f.Name(true) + "Key"] for a standard field,
    [kt.Prefix + f.Name(true) + "Key"] otherwise. *)
Definition keyName (f : Field) : string :=
  if f_is_std f then f_Name_exported f ++ "Key"
  else Prefix kt ++ f_Name_exported f ++ "Key".

(** [switch name { case c1: ... case cn: ... }] over the fields: the
    first field whose case label has the value [name]. *)
Definition switchOn (label : Field → string) (name : string)
    : option Field :=
  List.find (fun f => String.eqb (constVal (label f)) name) (o_Fields obj).

(** [h.<name> = v]: a nil value leaves the slot nil. *)
Definition assign (h : Obj) (name : string) (v : Value) : Obj :=
  mkObj (if is_nil v then delete name (slots h) else <[name := v]> (slots h))
        (privateParams h) (dc h).

(** [h.<name> = nil]. *)
Definition clear (h : Obj) (name : string) : Obj :=
  mkObj (delete name (slots h)) (privateParams h) (dc h).

(** The keys of [privateParams] (none when the map is nil). *)
Definition extKeys (h : Obj) : gset string :=
  dom (default ∅ (privateParams h)).

(** [func new<ifName>()]. *)
Definition newObj : Obj := mkObj ∅ (Some ∅) None.

(** [func (h <structName>) KeyType() jwa.KeyType]: [return <kt.KeyType>]. *)
Definition KeyType_of (h : Obj) : Value :=
  VData "jwa.KeyType" (KeyType_expr kt).

(** [makePairs]: the pair of one field, when its slot is not nil. *)
Definition fieldPair (h : Obj) (f : Field) : list (string * Value) :=
  match slots h !! f_Name_unexported f with
  | None => []
  | Some p =>
      if fieldStorageTypeIsIndirect (f_Type f)
      then [(constVal (keyName f), deref p)]
      else [(constVal (keyName f), p)]
  end.

(** [func (h *<structName>) makePairs() []*HeaderPair].  [ord] is the
    order in which [range h.privateParams] yields the entries. *)
Definition makePairs (h : Obj) (ord : list (string * Value))
    : list (string * Value) :=
  (("kty", KeyType_of h) :: flat_map (fieldPair h) (o_Fields obj) ++ ord)%list.

(** [func (h *<structName>) Get(name string) (interface{}, bool)]. *)
Definition Get (h : Obj) (name : string) : Value * bool :=
  if String.eqb name KeyTypeKey then (KeyType_of h, true)
  else
    match switchOn keyName name with
    | Some f =>
        match slots h !! f_Name_unexported f with
        | None => (VNil, false)
        | Some p =>
            if f_hasGet f then (method_Get p, true)
            else if fieldStorageTypeIsIndirect (f_Type f) then (deref p, true)
            else (p, true)
        end
    | None =>
        match privateParams h with
        | None => (VNil, false)
        | Some m =>
            match m !! name with
            | Some v => (v, true)
            | None => (VNil, false)
            end
        end
    end.

(** [m[k] = v] on a map that may be nil. *)
Definition map_store (m : option (gmap string Value)) (k : string) (v : Value)
    : outcome (gmap string Value) :=
  match m with
  | None => Panic "assignment to entry in nil map"
  | Some m => Ok (<[k := v]> m)
  end.

(** The case of [setNoLock] emitted for the field [f]. *)
Definition setField (h : Obj) (f : Field) (value : Value) : outcome Obj :=
  if String.eqb (f_Name_unexported f) "algorithm" then
    if type_assert "string" value
       || type_assert "jwa.SignatureAlgorithm" value
       || type_assert "jwa.ContentEncryptionAlgorithm" value
    then Ok (assign h "algorithm" (VPtr (KeyAlgorithmFrom value)))
    else
      match as_Stringer value with
      | Some s => Ok (assign h "algorithm" (VPtr (KeyAlgorithmFrom (VString s))))
      | None =>
          Err ("invalid type for " ++ constVal (keyName f) ++ " key: "
               ++ fmt_T value)
      end
  else if String.eqb (f_Name_unexported f) "keyUsage" then
    if type_assert "KeyUsageType" value then
      if bool_decide (value = ForSignature) || bool_decide (value = ForEncryption)
      then Ok (assign h "keyUsage"
                 (VPtr (VString (default "" (as_Stringer value)))))
      else Err ("invalid key usage type " ++ fmt_s value)
    else if type_assert "string" value then
      Ok (assign h "keyUsage" (VPtr value))
    else Err ("invalid key usage type " ++ fmt_s value)
  else if f_hasAccept f then
    match method_Accept (f_Type f) value with
    | Ok acceptor =>
        if fieldStorageTypeIsIndirect (f_Type f)
        then Ok (assign h (f_Name_unexported f) (VPtr acceptor))
        else Ok (assign h (f_Name_unexported f) acceptor)
    | Err e =>
        Err ("invalid value for " ++ constVal (keyName f) ++ " key: " ++ e)
    | Panic p => Panic p
    end
  else
    if type_assert (f_Type f) value then
      if fieldStorageTypeIsIndirect (f_Type f)
      then Ok (assign h (f_Name_unexported f) (VPtr value))
      else Ok (assign h (f_Name_unexported f) value)
    else
      Err ("invalid value for " ++ constVal (keyName f) ++ " key: "
           ++ fmt_T value).

(** [func (h *<structName>) setNoLock(name string, value interface{}) error].
    [Ok h'] is a nil error with the object now [h']; an error leaves the
    object as it was. *)
Definition setNoLock (h : Obj) (name : string) (value : Value) : outcome Obj :=
  if String.eqb name "kty" then Ok h
  else
    match switchOn keyName name with
    | Some f => setField h f value
    | None =>
        let pp := match privateParams h with
                  | None => Some ∅
                  | Some m => Some m
                  end in
        match map_store pp name value with
        | Ok m => Ok (mkObj (slots h) (Some m) (dc h))
        | Err e => Err e
        | Panic p => Panic p
        end
    end.

(** [func (h *<structName>) Set(name string, value interface{}) error]. *)
Definition Set_ (h : Obj) (name : string) (value : Value) : outcome Obj :=
  setNoLock h name value.

(** [func (k *<structName>) Remove(key string) error]. *)
Definition Remove (k : Obj) (key : string) : outcome Obj :=
  match switchOn keyName key with
  | Some f => Ok (clear k (f_Name_unexported f))
  | None => Ok (mkObj (slots k) (delete key <$> privateParams k) (dc k))
  end.

End Emitted.

Section Codec.
Context `{RT : GoRuntime}.
Variable kt : KeyType.
Variable obj : Object.

(** *** [UnmarshalJSON] *)

(** How one turn of the [LOOP] ends. *)
Inductive turn :=
| Continue (h : Obj) (dec : Decoder)     (* next token *)
| Break (h : Obj)                        (* [break LOOP] *)
| Return (h : Obj) (err : string)        (* [return fmt.Errorf(...)] *)
| Crash (msg : string).                  (* a panic *)

(** The object as a turn leaves it. *)
Definition turnObj (t : turn) : option Obj :=
  match t with
  | Continue h _ | Break h | Return h _ => Some h
  | Crash _ => None
  end.

(** How the method ends: it returns (with a nil or non-nil error, the
    object as the call left it), it panics, or the model's bound on the
    number of turns is reached. *)
Inductive decoded :=
| Returned (h : Obj) (err : option string)
| Crashed (msg : string)
| OutOfFuel.

(** The case label emitted for a field in the key switch. *)
Definition unmarshalLabel (f : Field) : string :=
  if String.eqb (f_Type f) "string" then f_Name_exported f ++ "Key"
  else if String.eqb (f_Type f) "jwa.KeyAlgorithm" then f_Name_exported f ++ "Key"
  else if String.eqb (f_Type f) "[]byte" then
    (if bool_decide (f_Name_unexported f ∈
          ["n"; "e"; "d"; "p"; "dp"; "dq"; "x"; "y"; "q"; "qi"; "octets"])
     then Prefix kt ++ f_Name_exported f
     else f_Name_exported f) ++ "Key"
  else
    (if String.eqb (f_Name_unexported f) "crv"
     then Prefix kt ++ f_Name_exported f
     else f_Name_exported f) ++ "Key".

Definition decodeFailed (f : Field) (e : string) : string :=
  "failed to decode value for key " ++ constVal (unmarshalLabel f) ++ ": " ++ e.

(** The body of the case emitted for the field [f]. *)
Definition decodeField (h : Obj) (f : Field) (dec : Decoder) : turn :=
  if String.eqb (f_Type f) "string" then
    match AssignNextStringToken dec with
    | (Ok s, dec') => Continue (assign h (f_Name_unexported f) (VPtr (VString s))) dec'
    | (Err e, _) => Return h (decodeFailed f e)
    | (Panic p, _) => Crash p
    end
  else if String.eqb (f_Type f) "jwa.KeyAlgorithm" then
    match dec_Decode "string" dec with
    | (Ok s, dec') => Continue (assign h (f_Name_unexported f) (VPtr (KeyAlgorithmFrom s))) dec'
    | (Err e, _) => Return h (decodeFailed f e)
    | (Panic p, _) => Crash p
    end
  else if String.eqb (f_Type f) "[]byte" then
    match AssignNextBytesToken dec with
    | (Ok b, dec') => Continue (assign h (f_Name_unexported f) b) dec'
    | (Err e, _) => Return h (decodeFailed f e)
    | (Panic p, _) => Crash p
    end
  else
    match dec_Decode (if IsPointer f then PointerElem f else f_Type f) dec with
    | (Ok v, dec') => Continue (assign h (f_Name_unexported f) (VPtr v)) dec'
    | (Err e, _) => Return h (decodeFailed f e)
    | (Panic p, _) => Crash p
    end.

(** [h.setNoLock(tok, decoded); continue]: the error is dropped. *)
Definition storeDecoded (h : Obj) (tok : string) (v : Value) (dec : Decoder)
    : turn :=
  match setNoLock kt obj h tok v with
  | Ok h' => Continue h' dec
  | Err _ => Continue h dec
  | Panic p => Crash p
  end.

(** The package-level [registry] is asked. *)
Definition decodeGlobal (h : Obj) (tok : string) (dec : Decoder) : turn :=
  match reg_Decode registry dec tok with
  | (Ok v, dec') => storeDecoded h tok v dec'
  | (Err e, _) => Return h ("could not decode field " ++ tok ++ ": " ++ e)
  | (Panic p, _) => Crash p
  end.

(** The [default:] case of the key switch. *)
Definition decodeExtension (h : Obj) (tok : string) (dec : Decoder) : turn :=
  match dc h with
  | Some d =>
      match dc_Registry d with
      | Some localReg =>
          match reg_Decode localReg dec tok with
          | (Ok v, dec') => storeDecoded h tok v dec'
          | (Err _, dec') => decodeGlobal h tok dec'
          | (Panic p, _) => Crash p
          end
      | None => decodeGlobal h tok dec
      end
  | None => decodeGlobal h tok dec
  end.

(** The message of the family-mismatch error. *)
Definition invalidKty (val : string) : string :=
  "invalid kty value for RSAPublicKey (" ++ val ++ ")".

(** [case string:], the switch on the key. *)
Definition decodeKey (h : Obj) (tok : string) (dec : Decoder) : turn :=
  if String.eqb tok KeyTypeKey then
    match ReadNextStringToken dec with
    | (Ok val, dec') =>
        if String.eqb val (KeyType_String (KeyType_expr kt))
        then Continue h dec'
        else Return h (invalidKty val)
    | (Err e, _) => Return h ("error reading token: " ++ e)
    | (Panic p, _) => Crash p
    end
  else
    match switchOn obj unmarshalLabel tok with
    | Some f => decodeField h f dec
    | None => decodeExtension h tok dec
    end.

(** One turn of [LOOP]. *)
Definition decodeTurn (h : Obj) (dec : Decoder) : turn :=
  match dec_Token dec with
  | (Err e, _) => Return h ("error reading token: " ++ e)
  | (Panic p, _) => Crash p
  | (Ok (TDelim c), dec') =>
      if Ascii.eqb c "}" then Break h
      else if negb (Ascii.eqb c "{")
      then Return h ("expected '{', but got '" ++ String c "'")
      else Continue h dec'
  | (Ok (TString tok), dec') => decodeKey h tok dec'
  | (Ok (TOther ty), _) => Return h ("invalid token " ++ ty)
  end.

(** The checks after the loop, one per required field. *)
Fixpoint checkRequired (h : Obj) (fs : list Field) : option string :=
  match fs with
  | [] => None
  | f :: fs =>
      if f_IsRequired f then
        match slots h !! f_Name_unexported f with
        | None => Some ("required field " ++ f_JSON f ++ " is missing")
        | Some _ => checkRequired h fs
        end
      else checkRequired h fs
  end.

(** The [LOOP], for at most [fuel] turns. *)
Fixpoint decodeLoop (fuel : nat) (h : Obj) (dec : Decoder) : decoded :=
  match fuel with
  | O => OutOfFuel
  | S fuel =>
      match decodeTurn h dec with
      | Continue h' dec' => decodeLoop fuel h' dec'
      | Break h' => Returned h' (checkRequired h' (o_Fields obj))
      | Return h' e => Returned h' (Some e)
      | Crash p => Crashed p
      end
  end.

(** [h.<f> = nil] for every field. *)
Definition resetSlots (h : Obj) : Obj :=
  fold_left (fun h f => clear h (f_Name_unexported f)) (o_Fields obj) h.

(** [func (h *<structName>) UnmarshalJSON(buf []byte) error]. *)
Definition UnmarshalJSON (fuel : nat) (h : Obj) (buf : list Byte.byte)
    : decoded :=
  decodeLoop fuel (resetSlots h) (NewDecoder buf).

(** The emitted struct has no other slots than those of the fields. *)
Definition wfObj (h : Obj) : Prop :=
  Forall (λ n, n ∈ map f_Name_unexported (o_Fields obj))
         (map_to_list (slots h)).*1.

(** *** [MarshalJSON] *)











End Codec.

(* ===================================================================== *)
(** ** The generator: the text of one variant ([generateObject]) *)
(* ===================================================================== *)

Section Generator.
(** [strings.ToLower] and [codegen.ZeroVal]. *)
Variable strings_ToLower : string → string.
Variable codegen_ZeroVal : string → string.

Variable kt : KeyType.
Variable obj : Object.

Definition nonEmpty (v : string) : bool := negb (String.eqb v "").

Definition ifName : string :=
  if nonEmpty (o_interface obj) then o_interface obj
  else Prefix kt ++ o_Name obj.

Definition objName : string := o_Name obj.

Definition structName : string :=
  if nonEmpty (o_struct_name obj) then o_struct_name obj
  else strings_ToLower (Prefix kt) ++ objName.

(** [keyName], as computed in [makePairs], [setNoLock] and [Remove]. *)
Definition genKeyName (f : Field) : string := keyName kt f.

Definition emitInterface (raw_key_type : string) : list stmt :=
  [ LL ("type " ++ ifName ++ " interface {");
    L "Key";
    L ("FromRaw(" ++ raw_key_type ++ ") error") ]
  ++ flat_map (fun f =>
       if f_is_std f then []
       else [L (f_GetterMethod f ++ "() " ++ f_Type f)]) (o_Fields obj)
  ++ [ L "}" ].

Definition emitStruct : list stmt :=
  [ LL ("type " ++ structName ++ " struct {") ]
  ++ flat_map (fun f =>
       L (f_Name_unexported f ++ " " ++ fieldStorageType (f_Type f))
       :: (if (0 <? String.length (f_Comment f))%nat
           then [R (" // " ++ f_Comment f)] else [])) (o_Fields obj)
  ++ [ L "privateParams map[string]interface{}";
       L "mu *sync.RWMutex";
       L "dc json.DecodeCtx";
       L "}";
       LL ("var _ " ++ ifName ++ " = &" ++ structName ++ "{}");
       L ("var _ Key = &" ++ structName ++ "{}");
       LL ("func new" ++ ifName ++ "() *" ++ structName ++ " {");
       L ("return &" ++ structName ++ "{");
       L "mu: &sync.RWMutex{},";
       L "privateParams: make(map[string]interface{}),";
       L "}";
       L "}";
       LL ("func (h " ++ structName ++ ") KeyType() jwa.KeyType {");
       L ("return " ++ KeyType_expr kt);
       L "}" ]
  ++ (if String.eqb objName "PublicKey" || String.eqb objName "PrivateKey"
      then [ LL ("func (h " ++ structName ++ ") IsPrivate() bool {");
             L ("return " ++ (if String.eqb objName "PrivateKey"
                              then "true" else "false"));
             L "}" ]
      else []).

Definition emitGetter (f : Field) : list stmt :=
  [ LL ("func (h *" ++ structName ++ ") " ++ f_GetterMethod f ++ "() ");
    R (if nonEmpty (f_getter_return_value f) then f_getter_return_value f
       else if IsPointer f && f_noDeref f then f_Type f
       else PointerElem f);
    R " {" ]
  ++ (if f_hasGet f then
        [ L ("if h." ++ f_Name_unexported f ++ " != nil {");
          L ("return h." ++ f_Name_unexported f ++ ".Get()");
          L "}";
          L ("return " ++ codegen_ZeroVal (PointerElem f)) ]
      else if negb (IsPointer f) then
        if fieldStorageTypeIsIndirect (f_Type f) then
          [ L ("if h." ++ f_Name_unexported f ++ " != nil {");
            L ("return *(h." ++ f_Name_unexported f ++ ")");
            L "}";
            L ("return " ++ codegen_ZeroVal (PointerElem f)) ]
        else [ L ("return h." ++ f_Name_unexported f) ]
      else [ L ("return h." ++ f_Name_unexported f) ])
  ++ [ L "}" ].

Definition emitMakePairs : list stmt :=
  [ LL ("func (h *" ++ structName ++ ") makePairs() []*HeaderPair {");
    L "h.mu.RLock()";
    L "defer h.mu.RUnlock()";
    LL "var pairs []*HeaderPair";
    L ("pairs = append(pairs, &HeaderPair{Key: " ++ quoted "kty"
       ++ ", Value: " ++ KeyType_expr kt ++ "})") ]
  ++ flat_map (fun f =>
       [ L ("if h." ++ f_Name_unexported f ++ " != nil {");
         (if fieldStorageTypeIsIndirect (f_Type f)
          then L ("pairs = append(pairs, &HeaderPair{Key: " ++ genKeyName f
                  ++ ", Value: *(h." ++ f_Name_unexported f ++ ")})")
          else L ("pairs = append(pairs, &HeaderPair{Key: " ++ genKeyName f
                  ++ ", Value: h." ++ f_Name_unexported f ++ "})"));
         L "}" ]) (o_Fields obj)
  ++ [ L "for k, v := range h.privateParams {";
       L "pairs = append(pairs, &HeaderPair{Key: k, Value: v})";
       L "}";
       L "return pairs";
       L "}";
       LL ("func (h *" ++ structName ++ ") PrivateParams() map[string]interface{} {");
       L "return h.privateParams";
       L "}" ].

Definition emitGet : list stmt :=
  [ LL ("func (h *" ++ structName ++ ") Get(name string) (interface{}, bool) {");
    L "h.mu.RLock()";
    L "defer h.mu.RUnlock()";
    L "switch name {";
    L "case KeyTypeKey:";
    L "return h.KeyType(), true" ]
  ++ flat_map (fun f =>
       [ (if f_is_std f then L ("case " ++ f_Name_exported f ++ "Key:")
          else L ("case " ++ Prefix kt ++ f_Name_exported f ++ "Key:"));
         L ("if h." ++ f_Name_unexported f ++ " == nil {");
         L "return nil, false";
         L "}";
         (if f_hasGet f then L ("return h." ++ f_Name_unexported f ++ ".Get(), true")
          else if fieldStorageTypeIsIndirect (f_Type f)
          then L ("return *(h." ++ f_Name_unexported f ++ "), true")
          else L ("return h." ++ f_Name_unexported f ++ ", true")) ]) (o_Fields obj)
  ++ [ L "default:";
       L "v, ok := h.privateParams[name]";
       L "return v, ok";
       L "}";
       L "}" ].

Definition emitSetCase (f : Field) : list stmt :=
  L ("case " ++ genKeyName f ++ ":")
  :: (if String.eqb (f_Name_unexported f) "algorithm" then
        [ L "switch v := value.(type) {";
          L "case string, jwa.SignatureAlgorithm, jwa.ContentEncryptionAlgorithm:";
          L "var tmp = jwa.KeyAlgorithmFrom(v)";
          L "h.algorithm = &tmp";
          L "case fmt.Stringer:";
          L "s := v.String()";
          L "var tmp = jwa.KeyAlgorithmFrom(s)";
          L "h.algorithm = &tmp";
          L "default:";
          L ("return fmt.Errorf(`invalid type for %s key: %T`, "
             ++ genKeyName f ++ ", value)");
          L "}";
          L "return nil" ]
      else if String.eqb (f_Name_unexported f) "keyUsage" then
        [ L "switch v := value.(type) {";
          L "case KeyUsageType:";
          L "switch v {";
          L "case ForSignature, ForEncryption:";
          L "tmp := v.String()";
          L "h.keyUsage = &tmp";
          L "default:";
          L "return fmt.Errorf(`invalid key usage type %s`, v)";
          L "}";
          L "case string:";
          L "h.keyUsage = &v";
          L "default:";
          L "return fmt.Errorf(`invalid key usage type %s`, v)";
          L "}" ]
      else if f_hasAccept f then
        [ L ("var acceptor " ++ f_Type f);
          L "if err := acceptor.Accept(value); err != nil {";
          L ("return fmt.Errorf(`invalid value for %s key: %w`, "
             ++ genKeyName f ++ ", err)");
          L "}";
          (if fieldStorageTypeIsIndirect (f_Type f)
           then L ("h." ++ f_Name_unexported f ++ " = &acceptor")
           else L ("h." ++ f_Name_unexported f ++ " = acceptor"));
          L "return nil" ]
      else
        [ L ("if v, ok := value.(" ++ f_Type f ++ "); ok {");
          (if fieldStorageTypeIsIndirect (f_Type f)
           then L ("h." ++ f_Name_unexported f ++ " = &v")
           else L ("h." ++ f_Name_unexported f ++ " = v"));
          L "return nil";
          L "}";
          L ("return fmt.Errorf(`invalid value for %s key: %T`, "
             ++ genKeyName f ++ ", value)") ]).

Definition emitSet : list stmt :=
  [ LL ("func (h *" ++ structName ++ ") Set(name string, value interface{}) error {");
    L "h.mu.Lock()";
    L "defer h.mu.Unlock()";
    L "return h.setNoLock(name, value)";
    L "}";
    LL ("func (h *" ++ structName
        ++ ") setNoLock(name string, value interface{}) error {");
    L "switch name {";
    L ("case " ++ quoted "kty" ++ ":");
    L "return nil" ]
  ++ flat_map emitSetCase (o_Fields obj)
  ++ [ L "default:";
       L "if h.privateParams == nil {";
       L "h.privateParams = map[string]interface{}{}";
       L "}";
       L "h.privateParams[name] = value";
       L "}";
       L "return nil";
       L "}" ].

Definition emitRemove : list stmt :=
  [ LL ("func (k *" ++ structName ++ ") Remove(key string) error {");
    L "k.mu.Lock()";
    L "defer k.mu.Unlock()";
    L "switch key {" ]
  ++ flat_map (fun f =>
       [ L ("case " ++ genKeyName f ++ ":");
         L ("k." ++ f_Name_unexported f ++ " = nil") ]) (o_Fields obj)
  ++ [ L "default:";
       L "delete(k.privateParams, key)";
       L "}";
       L "return nil";
       L "}";
       LL ("func (k *" ++ structName ++ ") Clone() (Key, error) {");
       L "return cloneKey(k)";
       L "}";
       LL ("func (k *" ++ structName ++ ") DecodeCtx() json.DecodeCtx {");
       L "k.mu.RLock()";
       L "defer k.mu.RUnlock()";
       L "return k.dc";
       L "}";
       LL ("func (k *" ++ structName ++ ") SetDecodeCtx(dc json.DecodeCtx) {");
       L "k.mu.Lock()";
       L "defer k.mu.Unlock()";
       L "k.dc = dc";
       L "}" ].

(** The case of the key switch of [UnmarshalJSON] emitted for [f]; the
    label is [unmarshalLabel]. *)
Definition emitDecodeCase (f : Field) : list stmt :=
  if String.eqb (f_Type f) "string" then
    [ L ("case " ++ unmarshalLabel kt f ++ ":");
      L ("if err := json.AssignNextStringToken(&h." ++ f_Name_unexported f
         ++ ", dec); err != nil {");
      L ("return fmt.Errorf(`failed to decode value for key %s: %w`, "
         ++ unmarshalLabel kt f ++ ", err)");
      L "}" ]
  else if String.eqb (f_Type f) "jwa.KeyAlgorithm" then
    [ L ("case " ++ unmarshalLabel kt f ++ ":");
      L "var s string";
      L "if err := dec.Decode(&s); err != nil {";
      L ("return fmt.Errorf(`failed to decode value for key %s: %w`, "
         ++ unmarshalLabel kt f ++ ", err)");
      L "}";
      L "alg := jwa.KeyAlgorithmFrom(s)";
      L ("h." ++ f_Name_unexported f ++ " = &alg") ]
  else if String.eqb (f_Type f) "[]byte" then
    [ L ("case " ++ unmarshalLabel kt f ++ ":");
      L ("if err := json.AssignNextBytesToken(&h." ++ f_Name_unexported f
         ++ ", dec); err != nil {");
      L ("return fmt.Errorf(`failed to decode value for key %s: %w`, "
         ++ unmarshalLabel kt f ++ ", err)");
      L "}" ]
  else
    [ L ("case " ++ unmarshalLabel kt f ++ ":");
      (if IsPointer f then L ("var decoded " ++ PointerElem f)
       else L ("var decoded " ++ f_Type f));
      L "if err := dec.Decode(&decoded); err != nil {";
      L ("return fmt.Errorf(`failed to decode value for key %s: %w`, "
         ++ unmarshalLabel kt f ++ ", err)");
      L "}";
      L ("h." ++ f_Name_unexported f ++ " = &decoded") ].

Definition emitUnmarshalJSON : list stmt :=
  [ LL ("func (h *" ++ structName ++ ") UnmarshalJSON(buf []byte) error {");
    L "h.mu.Lock()";
    L "defer h.mu.Unlock()" ]
  ++ map (fun f => L ("h." ++ f_Name_unexported f ++ " = nil")) (o_Fields obj)
  ++ [ L "dec := json.NewDecoder(bytes.NewReader(buf))";
       L "LOOP:";
       L "for {";
       L "tok, err := dec.Token()";
       L "if err != nil {";
       L "return fmt.Errorf(`error reading token: %w`, err)";
       L "}";
       L "switch tok := tok.(type) {";
       L "case json.Delim:";
       L "// Assuming we're doing everything correctly, we should ONLY";
       L "// get either '{' or '}' here.";
       L "if tok == '}' { // End of object";
       L "break LOOP";
       L "} else if tok != '{' {";
       L "return fmt.Errorf(`expected '{', but got '%c'`, tok)";
       L "}";
       L "case string: // Objects can only have string keys";
       L "switch tok {";
       L "case KeyTypeKey:";
       L "val, err := json.ReadNextStringToken(dec)";
       L "if err != nil {";
       L "return fmt.Errorf(`error reading token: %w`, err)";
       L "}";
       L ("if val != " ++ KeyType_expr kt ++ ".String() {");
       L "return fmt.Errorf(`invalid kty value for RSAPublicKey (%s)`, val)";
       L "}" ]
  ++ flat_map emitDecodeCase (o_Fields obj)
  ++ [ L "default:";
       L "if dc := h.dc; dc != nil {";
       L "if localReg := dc.Registry(); localReg != nil {";
       L "decoded, err := localReg.Decode(dec, tok)";
       L "if err == nil {";
       L "h.setNoLock(tok, decoded)";
       L "continue";
       L "}";
       L "}";
       L "}";
       L "decoded, err := registry.Decode(dec, tok)";
       L "if err == nil {";
       L "h.setNoLock(tok, decoded)";
       L "continue";
       L "}";
       L "return fmt.Errorf(`could not decode field %s: %w`, tok, err)";
       L "}";
       L "default:";
       L "return fmt.Errorf(`invalid token %T`, tok)";
       L "}";
       L "}" ]
  ++ flat_map (fun f =>
       if f_IsRequired f then
         [ L ("if h." ++ f_Name_unexported f ++ " == nil {");
           L ("return fmt.Errorf(`required field " ++ f_JSON f ++ " is missing`)");
           L "}" ]
       else []) (o_Fields obj)
  ++ [ L "return nil";
       L "}" ].

Definition emitMarshalJSON : list stmt :=
  [ LL ("func (h " ++ structName ++ ") MarshalJSON() ([]byte, error) {");
    L "data := make(map[string]interface{})";
    L ("fields := make([]string, 0, " ++ pretty (List.length (o_Fields obj)) ++ ")");
    L "for _, pair := range h.makePairs() {";
    L "fields = append(fields, pair.Key.(string))";
    L "data[pair.Key.(string)] = pair.Value";
    L "}";
    LL "sort.Strings(fields)";
    L "buf := pool.GetBytesBuffer()";
    L "defer pool.ReleaseBytesBuffer(buf)";
    L "buf.WriteByte('{')";
    L "enc := json.NewEncoder(buf)";
    L "for i, f := range fields {";
    L "if i > 0 {";
    L "buf.WriteRune(',')";
    L "}";
    L ("buf.WriteRune('" ++ dquote ++ "')");
    L "buf.WriteString(f)";
    L ("buf.WriteString(`" ++ dquote ++ ":`)");
    L "v := data[f]";
    L "switch v := v.(type) {";
    L "case []byte:";
    L ("buf.WriteRune('" ++ dquote ++ "')");
    L "buf.WriteString(base64.EncodeToString(v))";
    L ("buf.WriteRune('" ++ dquote ++ "')");
    L "default:";
    L "if err := enc.Encode(v); err != nil {";
    L "return nil, fmt.Errorf(`failed to encode value for field %s: %w`, f, err)";
    L "}";
    L "buf.Truncate(buf.Len()-1)";
    L "}";
    L "}";
    L "buf.WriteByte('}')";
    L "ret := make([]byte, buf.Len())";
    L "copy(ret, buf.Bytes())";
    L "return ret, nil";
    L "}" ].

Definition emitIterate : list stmt :=
  [ LL ("func (h *" ++ structName
        ++ ") Iterate(ctx context.Context) HeaderIterator {");
    L "pairs := h.makePairs()";
    L "ch := make(chan *HeaderPair, len(pairs))";
    L "go func(ctx context.Context, ch chan *HeaderPair, pairs []*HeaderPair) {";
    L "defer close(ch)";
    L "for _, pair := range pairs {";
    L "select {";
    L "case <-ctx.Done():";
    L "return";
    L "case ch<-pair:";
    L "}";
    L "}";
    L "}(ctx, ch, pairs)";
    L "return mapiter.New(ch)";
    L "}";
    LL ("func (h *" ++ structName
        ++ ") Walk(ctx context.Context, visitor HeaderVisitor) error {");
    L "return iter.WalkMap(ctx, h, visitor)";
    L "}";
    LL ("func (h *" ++ structName
        ++ ") AsMap(ctx context.Context) (map[string]interface{}, error) {");
    L "return iter.AsMap(ctx, h)";
    L "}" ].

(** [func generateObject]: the statements appended to [o].  The only
    way out other than [return nil] is the panic of [MustString]. *)
Definition generateObject : outcome (list stmt) :=
  match o_raw_key_type obj with
  | None => Panic "raw_key_type"
  | Some raw =>
      Ok (emitInterface raw ++ emitStruct
          ++ flat_map emitGetter (o_Fields obj)
          ++ emitMakePairs ++ emitGet ++ emitSet ++ emitRemove
          ++ emitUnmarshalJSON ++ emitMarshalJSON ++ emitIterate)%list
  end.

End Generator.

(* ===================================================================== *)
(** ** The generator: one key type ([generateKeyType]) *)
(* ===================================================================== *)

Section GenerateKeyType.
(** [%q] of a string, [strings.ToLower], [codegen.ZeroVal] and
    [o.WriteFile] (which returns an error or nil). *)
Variable fmt_q : string → string.
Variable strings_ToLower : string → string.
Variable codegen_ZeroVal : string → string.
Variable WriteFile : string → list stmt → option string.

(** The [const ( ... )] block. *)
Definition emitConstants (cs : list Constant) : list stmt :=
  [ LL "const (" ]
  ++ map (fun c => L (c_Name c ++ " = " ++ fmt_q (c_Value c))) cs
  ++ [ L ")" ].

(** The loop over [kt.Objects] that calls [generateObject]. *)
Fixpoint generateObjects (kt : KeyType) (objs : list Object) (o : list stmt)
    : outcome (list stmt) :=
  match objs with
  | [] => Ok o
  | obj :: rest =>
      match generateObject strings_ToLower codegen_ZeroVal kt obj with
      | Ok out => generateObjects kt rest (o ++ out)
      | Err e => Err ("failed to generate object " ++ o_Name obj ++ ": " ++ e)
      | Panic p => Panic p
      end
  end.

(** [func generateKeyType(kt *KeyType) error]: [Ok o] is a nil error,
    with [o] the statements handed to [o.WriteFile]. *)
Definition generateKeyType (kt : KeyType) : outcome (list stmt) :=
  let o :=
    ([ L "// Code generated by tools/cmd/genjwk/main.go. DO NOT EDIT.";
       LL "package jwk" ]
     ++ emitConstants (keyTypeConstants kt))%list in
  match generateObjects kt (Objects kt) o with
  | Ok o' =>
      match WriteFile (Filename kt) o' with
      | Some e => Err ("failed to write to " ++ Filename kt ++ ": " ++ e)
      | None => Ok o'
      end
  | Err e => Err e
  | Panic p => Panic p
  end.

End GenerateKeyType.

(** The string constants of the emitted package: [KeyTypeKey], one
    [<Name>Key] per standard field ([generateGenericHeaders]), and the
    constants of every key type. *)
Definition packageConstants (std : list Field) (kts : list KeyType)
    : list Constant :=
  (mkConstant "KeyTypeKey" "kty"
   :: map (fun f => mkConstant (f_Name_exported f ++ "Key") (f_JSON f)) std
   ++ flat_map keyTypeConstants kts)%list.

Definition lookupConstant (cs : list Constant) (name : string) : string :=
  match List.find (fun c => String.eqb (c_Name c) name) cs with
  | Some c => c_Value c
  | None => ""
  end.

(* ===================================================================== *)
(** ** A schema and a runtime to run the definitions on *)
(* ===================================================================== *)

Module Example.

Definition field (exported unexported ty json : string)
    (required std hasGet hasAccept : bool) : Field :=
  mkField exported unexported ty json "" required std hasGet hasAccept false ""
          exported.

Definition fKeyID := field "KeyID" "keyID" "string" "kid" false true false false.
Definition fAlgorithm :=
  field "Algorithm" "algorithm" "jwa.KeyAlgorithm" "alg" false true false false.
Definition fKeyUsage := field "KeyUsage" "keyUsage" "string" "use" false true false false.
Definition fKeyOps :=
  field "KeyOps" "keyOps" "KeyOperationList" "key_ops" false true false true.
Definition fX509CertChain :=
  field "X509CertChain" "x509CertChain" "CertificateChain" "x5c" false true true false.
Definition fN := field "N" "n" "[]byte" "n" true false false false.
Definition fE := field "E" "e" "[]byte" "e" true false false false.
Definition fD := field "D" "d" "[]byte" "d" true false false false.

Definition stdFields : list Field :=
  [fAlgorithm; fKeyID; fKeyOps; fKeyUsage; fX509CertChain].

Definition rsaPublicKey : Object :=
  mkObject "PublicKey" ([fE; fN] ++ stdFields) "" "" (Some "*rsa.PublicKey").
Definition rsaPrivateKey : Object :=
  mkObject "PrivateKey" ([fD; fE; fN] ++ stdFields) "" "" (Some "*rsa.PrivateKey").

Definition rsa : KeyType :=
  mkKeyType "rsa_gen.go" "RSA" "jwa.RSA" [rsaPublicKey; rsaPrivateKey].

(** A key type in which two distinct fields have the display name [N]. *)
Definition fModulus :=
  field "N" "modulus" "string" "modulus" false false false false.

Definition colliding : KeyType :=
  mkKeyType "collide_gen.go" "RSA" "jwa.RSA"
    [ mkObject "PublicKey" [fN] "" "" (Some "*rsa.PublicKey");
      mkObject "PrivateKey" [fModulus] "" "" (Some "*rsa.PrivateKey") ].

(** The same key type with its objects listed in the other order. *)
Definition rsaSwapped : KeyType :=
  mkKeyType "rsa_gen.go" "RSA" "jwa.RSA" [rsaPrivateKey; rsaPublicKey].

(** The type of a value, as written in Go source. *)
Fixpoint dynType (v : Value) : string :=
  match v with
  | VNil => "<nil>"
  | VString _ => "string"
  | VBytes _ => "[]byte"
  | VNilOf ty => ty
  | VData ty _ => ty
  | VPtr v => "*" ++ dynType v
  end.

(** A reader over a text whose values are strings without escapes. *)
Fixpoint lexFrom (cur : option string) (s : string) : list Token :=
  match s with
  | EmptyString => []
  | String c r =>
      match cur with
      | Some acc =>
          if Ascii.eqb c (ascii_of_nat 34) then TString acc :: lexFrom None r
          else lexFrom (Some (acc ++ String c "")) r
      | None =>
          if Ascii.eqb c (ascii_of_nat 34) then lexFrom (Some "") r
          else if Ascii.eqb c "{" || Ascii.eqb c "}" || Ascii.eqb c "["
                  || Ascii.eqb c "]"
          then TDelim c :: lexFrom None r
          else if Ascii.eqb c ":" || Ascii.eqb c "," || Ascii.eqb c " "
          then lexFrom None r
          else TOther "float64" :: lexFrom None r
      end
  end.

Definition nextString (dec : list Token) : outcome string * list Token :=
  match dec with
  | TString s :: r => (Ok s, r)
  | _ :: r => (Err "not a string", r)
  | [] => (Err "EOF", [])
  end.

Definition nextValue (ty : string) (dec : list Token)
    : outcome Value * list Token :=
  match dec with
  | TString s :: r =>
      (Ok (if String.eqb ty "string" then VString s else VData ty s), r)
  | _ :: r => (Err "cannot decode", r)
  | [] => (Err "EOF", [])
  end.

(** base64, URL alphabet, no padding. *)
Definition b64alphabet : string :=
  "ABCDEFGHIJKLMNOPQRSTUVWXYZabcdefghijklmnopqrstuvwxyz0123456789-_".

Definition b64char (n : N) : string :=
  match String.get (N.to_nat n) b64alphabet with
  | Some c => String c ""
  | None => ""
  end.

Fixpoint b64encodeN (bs : list N) : string :=
  match bs with
  | a :: b :: c :: r =>
      let n := (a * 65536 + b * 256 + c)%N in
      b64char (n / 262144) ++ b64char ((n / 4096) mod 64)
      ++ b64char ((n / 64) mod 64) ++ b64char (n mod 64) ++ b64encodeN r
  | [a; b] =>
      let n := (a * 1024 + b * 4)%N in
      b64char (n / 4096) ++ b64char ((n / 64) mod 64) ++ b64char (n mod 64)
  | [a] =>
      let n := (a * 16)%N in
      b64char (n / 64) ++ b64char (n mod 64)
  | [] => ""
  end.

Definition b64encode (b : list Byte.byte) : string :=
  b64encodeN (map Byte.to_N b).

Definition b64index (c : ascii) : N :=
  match String.index 0 (String c "") b64alphabet with
  | Some i => N.of_nat i
  | None => 0
  end.

Definition byteOfN (n : N) : Byte.byte :=
  match Byte.of_N (n mod 256) with
  | Some b => b
  | None => Byte.x00
  end.

Fixpoint b64decodeN (cs : list N) : list Byte.byte :=
  match cs with
  | a :: b :: c :: d :: r =>
      let n := (a * 262144 + b * 4096 + c * 64 + d)%N in
      byteOfN (n / 65536) :: byteOfN (n / 256) :: byteOfN n :: b64decodeN r
  | [a; b; c] =>
      let n := (a * 4096 + b * 64 + c)%N in
      [byteOfN (n / 1024); byteOfN (n / 4)]
  | [a; b] => [byteOfN ((a * 64 + b) / 16)]
  | _ => []
  end.

Definition b64decode (s : string) : list Byte.byte :=
  b64decodeN (map b64index (list_ascii_of_string s)).

(** The value of [repr] under the name of a type. *)
Definition reprOf (v : Value) : string :=
  match v with
  | VString s | VData _ s => s
  | _ => ""
  end.

#[export] Instance runtime : GoRuntime := {|
  constVal := lookupConstant (packageConstants stdFields [rsa]);
  type_assert ty v := String.eqb (dynType v) ty;
  fmt_T := dynType;
  fmt_s := reprOf;
  KeyType_String expr := TrimPrefix expr "jwa.";
  KeyAlgorithmFrom v := VData "jwa.KeyAlgorithm" (reprOf v);
  as_Stringer v := match v with VData _ s => Some s | _ => None end;
  ForSignature := VData "KeyUsageType" "sig";
  ForEncryption := VData "KeyUsageType" "enc";
  method_Get v := VData "[]*x509.Certificate" (reprOf (deref v));
  method_Accept ty v :=
    match v with
    | VNil => Err "nil value"
    | _ => Ok (VData ty (reprOf v))
    end;
  base64_EncodeToString := b64encode;
  enc_Encode v :=
    match v with
    | VNil => Ok "null"
    | VNilOf _ | VPtr _ => Err "unsupported value"
    | VData "jwa.KeyType" e => Ok (quoted (TrimPrefix e "jwa."))
    | _ => Ok (quoted (reprOf v))
    end;
  Decoder := list Token;
  NewDecoder buf := lexFrom None (string_of_list_byte buf);
  dec_Token dec :=
    match dec with
    | t :: r => (Ok t, r)
    | [] => (Err "EOF", [])
    end;
  ReadNextStringToken := nextString;
  AssignNextStringToken := nextString;
  AssignNextBytesToken dec :=
    match nextString dec with
    | (Ok s, r) => (Ok (VBytes (b64decode s)), r)
    | (Err e, r) => (Err e, r)
    | (Panic p, r) => (Panic p, r)
    end;
  dec_Decode := nextValue;
  Registry := string → bool;
  reg_Decode reg dec name :=
    if reg name then nextValue "" dec
    else (Err ("no decoder for " ++ name), dec);
  registry := fun _ => true
|}.

(** A zero-valued struct, and one whose decode context has a local
    registry that knows no key. *)
Definition zeroObj : Obj := mkObj ∅ None None.
Definition decliningCtx : DecodeCtx :=
  mkDecodeCtx (Some ((λ _, false) : Registry)).
Definition ctxObj : Obj := mkObj ∅ None (Some decliningCtx).

(** [Set], with the object left as it was when the call fails. *)
Definition set (obj : Object) (h : Obj) (k : string) (v : Value) : Obj :=
  match Set_ rsa obj h k v with
  | Ok h' => h'
  | _ => h
  end.

(** The same key built in two orders. *)
Definition keyA : Obj :=
  set rsaPublicKey
    (set rsaPublicKey
       (set rsaPublicKey
          (set rsaPublicKey newObj "n" (VBytes [Byte.x01; Byte.x00; Byte.x01; Byte.xff]))
          "zzz" (VString "hello"))
       "aaa" (VString "world"))
    "kid" (VString "k1").


End Example.

(* ===================================================================== *)
(** * Properties *)
(* ===================================================================== *)

(** ** Storage derivation *)

Lemma KeyOperationList_is_list_type : is_list_type "KeyOperationList" = true.
Proof. reflexivity. Qed.

(** C2, as stated, fails: [KeyOperationList] is a list type (its name
    ends in [List]) and is not a pointer type, yet it is stored
    indirectly. *)
Lemma C2_counterexample :
  ¬ (∀ s, fieldStorageTypeIsIndirect s = true
          ↔ is_pointer_type s = false ∧ is_list_type s = false).
Proof.
  intros Hclaim.
  destruct (Hclaim "KeyOperationList") as [Hdir _].
  destruct (Hdir eq_refl) as [_ Hlist].
  discriminate Hlist.
Qed.

(** C2 (amended): the storage of a semantic type is indirect exactly when
    the type is [KeyOperationList], or is neither a pointer type nor a
    list type; [[]byte] is stored directly, and the storage type is
    the type itself or a pointer to it accordingly. *)
Theorem C2_storage_indirection (s : string) :
  (fieldStorageTypeIsIndirect s = true
   ↔ s = "KeyOperationList"
     ∨ (is_pointer_type s = false ∧ is_list_type s = false))
  ∧ fieldStorageTypeIsIndirect "[]byte" = false
  ∧ fieldStorageType s
    = (if fieldStorageTypeIsIndirect s then "*" ++ s else s).
Proof.
  split; [| split; reflexivity].
  unfold fieldStorageTypeIsIndirect, is_pointer_type, is_list_type.
  rewrite orb_true_iff, negb_true_iff, String.eqb_eq.
  rewrite !orb_false_iff.
  tauto.
Qed.
(** ** Sorting keys *)

(** ** Canonical serialization *)


Lemma string_length_app (s t : string) :
  String.length (s ++ t) = String.length s + String.length t.
Proof.
  induction s as [| c s IH]; [done |].
  change (S (String.length (s ++ t)) = S (String.length s + String.length t)).
  by rewrite IH.
Qed.




Section Canonical.
Context `{RT : GoRuntime}.








End Canonical.



(** ** Generic property access *)

Section Access.
Context `{RT : GoRuntime}.
Variable kt : KeyType.
Variable obj : Object.

(** A store into a nil map is a panic: the guard in [setNoLock] matters. *)
Lemma map_store_nil (k : string) (v : Value) :
  map_store None k v = Panic "assignment to entry in nil map".
Proof. reflexivity. Qed.

(** C10: for a key that no case of [setNoLock] matches, the extension
    map is allocated when it is nil and the entry is then stored: the
    call returns nil and does not panic, on any object. *)
Theorem C10_set_allocates_extension_map (h : Obj) (name : string) (value : Value) :
  name ≠ "kty" →
  switchOn obj (keyName kt) name = None →
  setNoLock kt obj h name value
  = Ok (mkObj (slots h)
              (Some (<[name := value]> (default ∅ (privateParams h))))
              (dc h))
  ∧ Set_ kt obj h name value = setNoLock kt obj h name value
  ∧ ∀ p, setNoLock kt obj h name value ≠ Panic p.
Proof.
  intros Hkty Hsw.
  assert (setNoLock kt obj h name value
          = Ok (mkObj (slots h)
                  (Some (<[name := value]> (default ∅ (privateParams h))))
                  (dc h))) as Heq.
  { unfold setNoLock. rewrite Hsw.
    destruct (String.eqb_spec name "kty") as [-> |]; [done |].
    by destruct (privateParams h). }
  split; [done |]. split; [done |].
  intros p. by rewrite Heq.
Qed.

(** C6: [Remove] returns nil for every key.  A key that a case matches
    resets the slot of that field (and nothing else); any other key is
    deleted from the extension map, and nothing changes when it is not
    there.  No key removes the discriminator: [Get] still finds it and
    it still heads the pair list. *)
Theorem C6_remove_never_fails (k : Obj) (key : string) :
  ∃ k', Remove kt obj k key = Ok k'
    ∧ dc k' = dc k
    ∧ match switchOn obj (keyName kt) key with
      | Some f =>
          slots k' !! f_Name_unexported f = None
          ∧ slots k' = delete (f_Name_unexported f) (slots k)
          ∧ privateParams k' = privateParams k
      | None =>
          slots k' = slots k
          ∧ privateParams k' = delete key <$> privateParams k
          ∧ (default ∅ (privateParams k) !! key = None → k' = k)
      end
    ∧ Get kt obj k' KeyTypeKey = (KeyType_of kt k, true)
    ∧ ∀ ord, head (makePairs kt obj k' ord) = Some ("kty", KeyType_of kt k).
Proof.
  unfold Remove.
  destruct (switchOn obj (keyName kt) key) as [f |]; eexists; (split; [done |]);
    (split; [done |]); (split; [| done]); simpl.
  - by rewrite lookup_delete_eq.
  - split; [done |]. split; [done |].
    destruct k as [sl [m |] d]; simpl; intros Hm; [| done].
    by rewrite delete_id.
Qed.

(** C4, as stated, fails: a field with [hasGet] is answered by its
    [Get()] method, not by dereferencing the slot. *)
Lemma C4_counterexample :
  ¬ (∀ (RT : GoRuntime) (kt : KeyType) (obj : Object) (h : Obj)
       (name : string) (f : Field) (p : Value),
       name ≠ KeyTypeKey →
       switchOn obj (keyName kt) name = Some f →
       slots h !! f_Name_unexported f = Some p →
       Get kt obj h name
       = (if fieldStorageTypeIsIndirect (f_Type f) then deref p else p, true)).
Proof.
  intros Hclaim.
  specialize (Hclaim Example.runtime Example.rsa Example.rsaPublicKey
    (Example.set Example.rsaPublicKey newObj "x5c"
       (VData "CertificateChain" "certs"))
    "x5c" Example.fX509CertChain (VPtr (VData "CertificateChain" "certs"))).
  vm_compute in Hclaim.
  specialize (Hclaim ltac:(discriminate) eq_refl eq_refl).
  discriminate Hclaim.
Qed.

(** C4 (amended): [Get] answers the discriminator key with the family
    value; for a key that the case of a field matches, not-found when
    the slot is nil, else the result of the [Get()] method for a field
    with [hasGet], the dereferenced slot for indirect storage and the
    slot itself otherwise; any other key is looked up in the extension
    map. *)
Theorem C4_get_dispatch (h : Obj) (name : string) :
  (name = KeyTypeKey → Get kt obj h name = (KeyType_of kt h, true))
  ∧ (∀ f, name ≠ KeyTypeKey →
          switchOn obj (keyName kt) name = Some f →
          Get kt obj h name
          = match slots h !! f_Name_unexported f with
            | None => (VNil, false)
            | Some p =>
                (if f_hasGet f then method_Get p
                 else if fieldStorageTypeIsIndirect (f_Type f) then deref p
                 else p, true)
            end)
  ∧ (name ≠ KeyTypeKey →
     switchOn obj (keyName kt) name = None →
     Get kt obj h name
     = match default ∅ (privateParams h) !! name with
       | Some v => (v, true)
       | None => (VNil, false)
       end).
Proof.
  unfold Get. split; [| split].
  - by intros ->.
  - intros f Hne Hsw. rewrite Hsw.
    destruct (String.eqb_spec name KeyTypeKey); [done |].
    destruct (slots h !! f_Name_unexported f); [| done].
    by destruct (f_hasGet f), (fieldStorageTypeIsIndirect (f_Type f)).
  - intros Hne Hsw. rewrite Hsw.
    destruct (String.eqb_spec name KeyTypeKey); [done |].
    by destruct (privateParams h).
Qed.

End Access.

Lemma C6_remove_never_fails_witness :
  ∃ k', Remove Example.rsa Example.rsaPublicKey Example.keyA "kty" = Ok k'
        ∧ Get Example.rsa Example.rsaPublicKey k' KeyTypeKey
          = (VData "jwa.KeyType" "jwa.RSA", true).
Proof.
  destruct (C6_remove_never_fails Example.rsa Example.rsaPublicKey
              Example.keyA "kty") as (k' & Hrm & _ & _ & Hget & _).
  exists k'. split; [exact Hrm | exact Hget].
Defined.

Lemma C10_set_allocates_extension_map_witness :
  setNoLock (RT := Example.runtime) Example.rsa Example.rsaPublicKey
    (mkObj ∅ None None) "zzz" (VString "hello")
  = Ok (mkObj ∅ (Some {[ "zzz" := VString "hello" ]}) None).
Proof.
  apply (C10_set_allocates_extension_map (RT := Example.runtime)
           Example.rsa Example.rsaPublicKey
           (mkObj ∅ None None) "zzz" (VString "hello")).
  - discriminate.
  - vm_compute. reflexivity.
Defined.

Lemma C4_get_dispatch_witness :
  Get Example.rsa Example.rsaPublicKey Example.keyA "n"
  = (VBytes [Byte.x01; Byte.x00; Byte.x01; Byte.xff], true).
Proof.
  apply (proj1 (proj2 (C4_get_dispatch Example.rsa Example.rsaPublicKey
                         Example.keyA "n")) Example.fN).
  - discriminate.
  - vm_compute. reflexivity.
Defined.

(** ** Streaming decode *)

Section Decode.
Context `{RT : GoRuntime}.
Variable kt : KeyType.
Variable obj : Object.

(** C7: a key that no case of the key switch matches goes to the
    [default:] case.  The local registry of the decode context is asked
    first, when there is one; if there is none or it fails, the global
    [registry] is asked, on the reader as the first attempt left it; a
    value either of them decodes is stored with [setNoLock], as [Set]
    does; when the global registry fails too, [UnmarshalJSON] returns an
    error that names the key. *)
Theorem C7_unrecognized_key (h : Obj) (tok : string) (dec : Decoder) :
  tok ≠ KeyTypeKey →
  switchOn obj (unmarshalLabel kt) tok = None →
  decodeKey kt obj h tok dec = decodeExtension kt obj h tok dec
  ∧ (∀ d localReg v dec',
       dc h = Some d → dc_Registry d = Some localReg →
       reg_Decode localReg dec tok = (Ok v, dec') →
       decodeExtension kt obj h tok dec = storeDecoded kt obj h tok v dec')
  ∧ (∀ d localReg e dec1,
       dc h = Some d → dc_Registry d = Some localReg →
       reg_Decode localReg dec tok = (Err e, dec1) →
       decodeExtension kt obj h tok dec = decodeGlobal kt obj h tok dec1)
  ∧ ((dc h = None ∨ ∃ d, dc h = Some d ∧ dc_Registry d = None) →
     decodeExtension kt obj h tok dec = decodeGlobal kt obj h tok dec)
  ∧ (∀ dec1 v dec',
       reg_Decode registry dec1 tok = (Ok v, dec') →
       decodeGlobal kt obj h tok dec1 = storeDecoded kt obj h tok v dec')
  ∧ (∀ dec1 e dec',
       reg_Decode registry dec1 tok = (Err e, dec') →
       decodeGlobal kt obj h tok dec1
       = Return h ("could not decode field " ++ tok ++ ": " ++ e))
  ∧ (∀ v dec' h',
       Set_ kt obj h tok v = Ok h' →
       storeDecoded kt obj h tok v dec' = Continue h' dec').
Proof.
  intros Hne Hsw. repeat split.
  - unfold decodeKey. rewrite Hsw.
    by destruct (String.eqb_spec tok KeyTypeKey).
  - intros d localReg v dec' Hdc Hreg Hdec.
    unfold decodeExtension. by rewrite Hdc, Hreg, Hdec.
  - intros d localReg e dec1 Hdc Hreg Hdec.
    unfold decodeExtension. by rewrite Hdc, Hreg, Hdec.
  - intros [Hdc | (d & Hdc & Hreg)]; unfold decodeExtension.
    + by rewrite Hdc.
    + by rewrite Hdc, Hreg.
  - intros dec1 v dec' Hdec. unfold decodeGlobal. by rewrite Hdec.
  - intros dec1 e dec' Hdec. unfold decodeGlobal. by rewrite Hdec.
  - intros v dec' h' Hset. unfold storeDecoded.
    unfold Set_ in Hset. by rewrite Hset.
Qed.

End Decode.

Lemma C7_unrecognized_key_witness :
  decodeKey Example.rsa Example.rsaPublicKey
    Example.ctxObj
    "zzz" [TString "hello"; TDelim "}"]
  = decodeExtension Example.rsa Example.rsaPublicKey
      Example.ctxObj
      "zzz" [TString "hello"; TDelim "}"].
Proof.
  refine (proj1 (C7_unrecognized_key (RT := Example.runtime)
                   Example.rsa Example.rsaPublicKey Example.ctxObj "zzz"
                   [TString "hello"; TDelim "}"] _ _)).
  - discriminate.
  - vm_compute. reflexivity.
Defined.

Section Reset.
Context `{RT : GoRuntime}.
Variable kt : KeyType.
Variable obj : Object.

Lemma resetSlots_fold (fs : list Field) (h : Obj) :
  let h' := fold_left (λ h f, clear h (f_Name_unexported f)) fs h in
  privateParams h' = privateParams h
  ∧ dc h' = dc h
  ∧ ∀ n, slots h' !! n
         = if decide (n ∈ map f_Name_unexported fs) then None else slots h !! n.
Proof.
  revert h. induction fs as [| f fs IH]; intros h; simpl.
  - repeat split.
  - destruct (IH (clear h (f_Name_unexported f))) as (Hpp & Hdc & Hsl).
    repeat split; [done | done |].
    intros n. rewrite Hsl. simpl.
    destruct (decide (n ∈ map f_Name_unexported fs)) as [Hin | Hin],
      (decide (n ∈ f_Name_unexported f :: map f_Name_unexported fs))
        as [Hin' | Hin']; try done.
    + exfalso. apply Hin'. by apply list_elem_of_further.
    + apply elem_of_cons in Hin' as [-> | Hin']; [| done].
      apply lookup_delete_eq.
    + apply lookup_delete_ne. intros <-. apply Hin', list_elem_of_here.
Qed.

(** On a well-formed struct the reset leaves no slot set. *)
Lemma resetSlots_empty (h : Obj) :
  wfObj obj h → resetSlots obj h = mkObj ∅ (privateParams h) (dc h).
Proof.
  intros Hwf. unfold resetSlots.
  destruct (resetSlots_fold (o_Fields obj) h) as (Hpp & Hdc & Hsl).
  destruct (fold_left _ _ _) as [sl pp d]. simpl in *. subst. f_equal.
  apply map_eq. intros n. rewrite Hsl, lookup_empty.
  case_decide as Hin; [done |].
  destruct (slots h !! n) as [v |] eqn:Hn; [| done].
  exfalso. apply Hin.
  unfold wfObj in Hwf. rewrite Forall_forall in Hwf. apply Hwf.
  apply list_elem_of_fmap. exists (n, v). split; [done |].
  by apply elem_of_map_to_list.
Qed.
End Reset.

Section Survive.
Context `{RT : GoRuntime}.
Variable kt : KeyType.
Variable obj : Object.

Lemma setField_extKeys h f v h' :
  setField kt h f v = Ok h' → extKeys h' = extKeys h.
Proof.
  unfold setField. intros Hset.
  repeat (case_match; simplify_eq); done.
Qed.

Lemma setNoLock_extKeys h name v h' :
  setNoLock kt obj h name v = Ok h' → extKeys h ⊆ extKeys h'.
Proof.
  unfold setNoLock. intros Hset.
  destruct (String.eqb name "kty"); [by simplify_eq |].
  destruct (switchOn obj (keyName kt) name) as [f |].
  - by rewrite (setField_extKeys _ _ _ _ Hset).
  - unfold extKeys. destruct (privateParams h); simplify_eq/=;
      rewrite dom_insert_L; set_solver.
Qed.

Lemma storeDecoded_extKeys h tok v dec h' :
  turnObj (storeDecoded kt obj h tok v dec) = Some h' → extKeys h ⊆ extKeys h'.
Proof.
  unfold storeDecoded. intros Hst.
  destruct (setNoLock kt obj h tok v) eqn:Hset; simplify_eq/=; [| done].
  by eapply setNoLock_extKeys.
Qed.

Lemma decodeGlobal_extKeys h tok dec h' :
  turnObj (decodeGlobal kt obj h tok dec) = Some h' → extKeys h ⊆ extKeys h'.
Proof.
  unfold decodeGlobal.
  destruct (reg_Decode registry dec tok) as [[v | e | p] dec']; intros Ht;
    simplify_eq/=; [| done].
  by eapply storeDecoded_extKeys.
Qed.

Lemma decodeExtension_extKeys h tok dec h' :
  turnObj (decodeExtension kt obj h tok dec) = Some h' → extKeys h ⊆ extKeys h'.
Proof.
  unfold decodeExtension.
  destruct (dc h) as [d |]; [| apply decodeGlobal_extKeys].
  destruct (dc_Registry d) as [localReg |]; [| apply decodeGlobal_extKeys].
  destruct (reg_Decode localReg dec tok) as [[v | e | p] dec']; [| | done].
  - apply storeDecoded_extKeys.
  - apply decodeGlobal_extKeys.
Qed.

Lemma decodeField_extKeys h f dec h' :
  turnObj (decodeField kt h f dec) = Some h' → extKeys h' = extKeys h.
Proof.
  unfold decodeField. intros Ht.
  repeat (case_match; simplify_eq/=); done.
Qed.

Lemma decodeKey_extKeys h tok dec h' :
  turnObj (decodeKey kt obj h tok dec) = Some h' → extKeys h ⊆ extKeys h'.
Proof.
  unfold decodeKey.
  destruct (String.eqb tok KeyTypeKey).
  - intros Ht. repeat (case_match; simplify_eq/=); done.
  - destruct (switchOn obj (unmarshalLabel kt) tok) as [f |].
    + intros Ht. by rewrite (decodeField_extKeys _ _ _ _ Ht).
    + apply decodeExtension_extKeys.
Qed.

Lemma decodeTurn_extKeys h dec h' :
  turnObj (decodeTurn kt obj h dec) = Some h' → extKeys h ⊆ extKeys h'.
Proof.
  unfold decodeTurn.
  destruct (dec_Token dec) as [[[c | tok | ty] | e | p] dec'];
    [| apply decodeKey_extKeys | ..];
    intros Ht; repeat case_match; by simplify_eq/=.
Qed.

Lemma decodeLoop_extKeys fuel h dec h' e :
  decodeLoop kt obj fuel h dec = Returned h' e → extKeys h ⊆ extKeys h'.
Proof.
  revert h dec. induction fuel as [| fuel IH]; intros h dec; simpl; [done |].
  pose proof (decodeTurn_extKeys h dec) as Hturn.
  destruct (decodeTurn kt obj h dec) as [h1 dec1 | h1 | h1 e1 | p];
    intros Hloop; simplify_eq; try (by apply Hturn).
  etrans; [by apply Hturn |]. by eapply IH.
Qed.
End Survive.

Section FullDecode.
Context `{RT : GoRuntime}.
Variable kt : KeyType.
Variable obj : Object.

(** C5 (amended): [UnmarshalJSON] first resets every static slot, so
    its result is that of decoding the payload into an object with no
    slot set and the extension map and decode context of the receiver;
    it is the result on a freshly constructed object when the receiver
    has an empty extension map and no decode context.  The extension map
    is not reset: every key it held before the decode is still there
    when the call returns. *)
Theorem C5_unmarshal_resets_slots_only (fuel : nat) (h : Obj)
    (buf : list Byte.byte) :
  wfObj obj h →
  resetSlots obj h = mkObj ∅ (privateParams h) (dc h)
  ∧ UnmarshalJSON kt obj fuel h buf
    = UnmarshalJSON kt obj fuel (mkObj ∅ (privateParams h) (dc h)) buf
  ∧ (privateParams h = Some ∅ → dc h = None →
     UnmarshalJSON kt obj fuel h buf = UnmarshalJSON kt obj fuel newObj buf)
  ∧ (∀ h' e, UnmarshalJSON kt obj fuel h buf = Returned h' e →
             extKeys h ⊆ extKeys h').
Proof.
  intros Hwf.
  assert (UnmarshalJSON kt obj fuel h buf
          = UnmarshalJSON kt obj fuel (mkObj ∅ (privateParams h) (dc h)) buf)
    as Hfresh.
  { unfold UnmarshalJSON. rewrite (resetSlots_empty obj h Hwf).
    rewrite (resetSlots_empty obj (mkObj ∅ _ _)); [done |].
    unfold wfObj. simpl. by rewrite map_to_list_empty. }
  split; [by apply resetSlots_empty |].
  split; [done |].
  split.
  - intros Hpp Hdc. rewrite Hfresh. unfold newObj. by rewrite Hpp, Hdc.
  - intros h' e Hdec. unfold UnmarshalJSON in Hdec.
    apply decodeLoop_extKeys in Hdec.
    destruct (resetSlots_fold (o_Fields obj) h) as (Hpp & _).
    unfold extKeys in *. unfold resetSlots in Hdec. by rewrite Hpp in Hdec.
Qed.
End FullDecode.

(** C5, as stated, fails: an entry of the extension map from before
    the decode is still found after it, while decoding the same payload
    into a freshly constructed object does not have it. *)
Lemma C5_counterexample :
  ¬ (∀ (RT : GoRuntime) (kt : KeyType) (obj : Object) (fuel : nat) (h : Obj)
       (buf : list Byte.byte) (h1 h2 : Obj) (e1 e2 : option string),
       UnmarshalJSON kt obj fuel h buf = Returned h1 e1 →
       UnmarshalJSON kt obj fuel newObj buf = Returned h2 e2 →
       ∀ name, Get kt obj h1 name = Get kt obj h2 name).
Proof.
  intros Hclaim.
  pose (buf := list_byte_of_string
    ("{" ++ quoted "kty" ++ ":" ++ quoted "RSA" ++ ","
         ++ quoted "n" ++ ":" ++ quoted "AQ" ++ ","
         ++ quoted "e" ++ ":" ++ quoted "AQAB" ++ "}")).
  destruct (UnmarshalJSON Example.rsa Example.rsaPublicKey 8 Example.keyA buf)
    as [h1 e1 | |] eqn:H1; [| by vm_compute in H1 ..].
  destruct (UnmarshalJSON (RT := Example.runtime) Example.rsa
              Example.rsaPublicKey 8 newObj buf)
    as [h2 e2 | |] eqn:H2; [| by vm_compute in H2 ..].
  specialize (Hclaim _ _ _ _ _ _ _ _ _ _ H1 H2 "zzz").
  vm_compute in H1, H2. by simplify_eq.
Qed.

Lemma C5_unmarshal_resets_slots_only_witness :
  UnmarshalJSON Example.rsa Example.rsaPublicKey 8 Example.keyA
    (list_byte_of_string "{}")
  = UnmarshalJSON Example.rsa Example.rsaPublicKey 8
      (mkObj ∅ (privateParams Example.keyA) (dc Example.keyA))
      (list_byte_of_string "{}").
Proof.
  apply (C5_unmarshal_resets_slots_only Example.rsa Example.rsaPublicKey 8
           Example.keyA (list_byte_of_string "{}")).
  apply (bool_decide_unpack _). vm_compute. exact I.
Defined.

(** ** The text of the family check *)

(** C9: for every key type and every variant, the emitted
    [UnmarshalJSON] compares the value read for [kty] with
    [<kt.KeyType>.String()], and the error it returns on a mismatch is
    the fixed text naming [RSAPublicKey]; so is the message at run
    time. *)
Theorem C9_family_mismatch_names_RSAPublicKey
    (strings_ToLower codegen_ZeroVal : string → string)
    (kt : KeyType) (obj : Object) :
  L "return fmt.Errorf(`invalid kty value for RSAPublicKey (%s)`, val)"
    ∈ emitUnmarshalJSON strings_ToLower kt obj
  ∧ L ("if val != " ++ KeyType_expr kt ++ ".String() {")
    ∈ emitUnmarshalJSON strings_ToLower kt obj
  ∧ (∀ out, generateObject strings_ToLower codegen_ZeroVal kt obj = Ok out →
       L "return fmt.Errorf(`invalid kty value for RSAPublicKey (%s)`, val)"
         ∈ out
       ∧ L ("if val != " ++ KeyType_expr kt ++ ".String() {") ∈ out)
  ∧ (∀ (RT : GoRuntime) (h : Obj) (dec dec' : Decoder) (val : string),
       ReadNextStringToken dec = (Ok val, dec') →
       val ≠ KeyType_String (KeyType_expr kt) →
       decodeKey kt obj h KeyTypeKey dec
       = Return h ("invalid kty value for RSAPublicKey (" ++ val ++ ")")).
Proof.
  assert (L "return fmt.Errorf(`invalid kty value for RSAPublicKey (%s)`, val)"
            ∈ emitUnmarshalJSON strings_ToLower kt obj
          ∧ L ("if val != " ++ KeyType_expr kt ++ ".String() {")
            ∈ emitUnmarshalJSON strings_ToLower kt obj) as [Hmsg Hcmp].
  { unfold emitUnmarshalJSON.
    split; apply elem_of_app; right; apply elem_of_app; right;
      apply elem_of_app; left; rewrite !elem_of_cons; tauto. }
  split; [done |]. split; [done |]. split.
  - intros out Hgen. unfold generateObject in Hgen.
    destruct (o_raw_key_type obj) as [raw |]; [| done].
    assert (∀ a b : list stmt, Ok a = Ok b → a = b) as Hinj
      by (by intros a b [= ->]).
    apply Hinj in Hgen. subst out.
    rewrite !elem_of_app. tauto.
  - intros RT h dec dec' val Hread Hne.
    unfold decodeKey. rewrite String.eqb_refl, Hread.
    by destruct (String.eqb_spec val (KeyType_String (KeyType_expr kt))).
Qed.

Lemma C9_family_mismatch_names_RSAPublicKey_witness :
  decodeKey Example.rsa Example.rsaPrivateKey Example.zeroObj KeyTypeKey
    [TString "EC"; TDelim "}"]
  = Return Example.zeroObj "invalid kty value for RSAPublicKey (EC)".
Proof.
  refine (proj2 (proj2 (proj2
    (C9_family_mismatch_names_RSAPublicKey id id
       Example.rsa Example.rsaPrivateKey)))
    Example.runtime Example.zeroObj [TString "EC"; TDelim "}"] [TDelim "}"]
    "EC" _ _).
  - reflexivity.
  - vm_compute. discriminate.
Defined.

(** ** Constant derivation *)

Lemma find_snoc {A} (P : A → bool) (l : list A) (x : A) :
  List.find P (l ++ [x])
  = match List.find P l with
    | Some y => Some y
    | None => if P x then Some x else None
    end.
Proof.
  induction l as [| y l IH]; simpl; [done |].
  by destruct (P y).
Qed.

Lemma string_app_inj_r (s1 s2 t : string) : s1 ++ t = s2 ++ t → s1 = s2.
Proof.
  revert s2. induction s1 as [| c s1 IH]; intros [| d s2] Heq; [done | | |].
  - change (t = String d (s2 ++ t)) in Heq.
    apply (f_equal String.length) in Heq.
    simpl in Heq. rewrite string_length_app in Heq. lia.
  - change (String c (s1 ++ t) = t) in Heq.
    apply (f_equal String.length) in Heq.
    simpl in Heq. rewrite string_length_app in Heq. lia.
  - change (String c (s1 ++ t) = String d (s2 ++ t)) in Heq.
    injection Heq as -> Heq. f_equal. by apply IH.
Qed.

(** The name of a constant determines the display name of its field. *)
Lemma constantOf_name_inj (prefix : string) (f g : Field) :
  c_Name (constantOf prefix f) = c_Name (constantOf prefix g) →
  f_Name_exported f = f_Name_exported g.
Proof.
  simpl. intros Heq. apply (inj (String.app prefix)) in Heq.
  by apply string_app_inj_r in Heq.
Qed.

Lemma nested_fold_flat (prefix : string) (objs : list Object)
    (st : list Constant * gset string) :
  fold_left (λ st obj, fold_left (collectField prefix) (o_Fields obj) st) objs st
  = fold_left (collectField prefix) (flat_map o_Fields objs) st.
Proof.
  revert st. induction objs as [| obj objs IH]; intros st; simpl; [done |].
  by rewrite IH, fold_left_app.
Qed.

Lemma firstOfName_elem (l : list Field) (f : Field) :
  firstOfName l f → f ∈ l.
Proof.
  intros Hf. apply find_some in Hf as [Hin _]. by apply list_elem_of_In.
Qed.

(** What the loops have collected after the fields [fs]. *)
Lemma collect_invariant (prefix : string) (fs : list Field) :
  let st := fold_left (collectField prefix) fs ([], ∅) in
  let l := List.filter (λ f, negb (f_is_std f)) fs in
  (∀ n, n ∈ st.2 ↔ ∃ f, f ∈ l ∧ f_Name_exported f = n)
  ∧ (∀ c, c ∈ st.1 ↔ ∃ f, firstOfName l f ∧ c = constantOf prefix f)
  ∧ NoDup (map c_Name st.1).
Proof.
  induction fs as [| f fs IH] using rev_ind; simpl.
  - split; [| split].
    + intros n. split; [set_solver |]. intros (f & Hf & _). by apply elem_of_nil in Hf.
    + intros c. split; [by intros ?%elem_of_nil |]. by intros (f & Hf & _).
    + constructor.
  - rewrite fold_left_app, List.filter_app. simpl.
    destruct IH as (Hseen & Hcs & Hnd).
    set (st := fold_left (collectField prefix) fs ([], ∅)) in *.
    set (l := List.filter (λ f, negb (f_is_std f)) fs) in *.
    unfold collectField.
    destruct (f_is_std f) eqn:Hstd; simpl.
    { by rewrite app_nil_r. }
    destruct (decide (f_Name_exported f ∈ st.2)) as [Hin | Hnin].
    + (* a field of this name was seen: nothing is appended *)
      apply Hseen in Hin as (g & Hg & Hname).
      assert (∀ x, List.find (sameName x) (l ++ [f]) = List.find (sameName x) l)
        as Hfind.
      { intros x. rewrite find_snoc.
        destruct (List.find (sameName x) l) eqn:Hx; [done |].
        destruct (sameName x f) eqn:Hxf; [| done].
        exfalso. apply String.eqb_eq in Hxf.
        apply list_elem_of_In in Hg.
        pose proof (find_none _ _ Hx g Hg) as Hno.
        unfold sameName in Hno. rewrite Hname, Hxf, String.eqb_refl in Hno.
        done. }
      split; [| split; [| done]].
      * intros n. rewrite Hseen. split.
        -- intros (x & Hx & Hn). exists x. split; [| done].
           apply elem_of_app. by left.
        -- intros (x & Hx & Hn). apply elem_of_app in Hx as [Hx | Hx]; [by eauto |].
           apply list_elem_of_singleton in Hx as ->. exists g. split; [done | congruence].
      * intros c. rewrite Hcs. unfold firstOfName.
        split; intros (x & Hx & Hc); exists x; by rewrite ?Hfind in *.
    + (* the first field of this name: its constant is appended *)
      assert (List.find (sameName f) l = None) as Hnone.
      { destruct (List.find (sameName f) l) as [g |] eqn:Hg; [| done].
        exfalso. apply Hnin. apply find_some in Hg as [Hg Hname].
        apply Hseen. exists g. split; [by apply list_elem_of_In |].
        by apply String.eqb_eq in Hname. }
      simpl. split; [| split].
      * intros n. rewrite elem_of_union, elem_of_singleton, Hseen. split.
        -- intros [-> | (x & Hx & Hn)].
           ++ exists f. split; [| done]. apply elem_of_app. right. by apply list_elem_of_singleton.
           ++ exists x. split; [| done]. apply elem_of_app. by left.
        -- intros (x & Hx & Hn). apply elem_of_app in Hx as [Hx | Hx]; [by eauto |].
           apply list_elem_of_singleton in Hx as ->. by left.
      * intros c. rewrite elem_of_app, list_elem_of_singleton, Hcs. unfold firstOfName.
        split.
        -- intros [(x & Hx & Hc) | ->].
           ++ exists x. split; [| done]. by rewrite find_snoc, Hx.
           ++ exists f. split; [| done].
              rewrite find_snoc, Hnone. unfold sameName. by rewrite String.eqb_refl.
        -- intros (x & Hx & Hc). rewrite find_snoc in Hx.
           destruct (List.find (sameName x) l) as [y |] eqn:Hy.
           ++ left. exists x. by simplify_eq.
           ++ right. destruct (sameName x f); by simplify_eq.
      * rewrite map_app. simpl. apply NoDup_app. split; [done |]. split.
        -- intros n Hn Hn'. apply list_elem_of_singleton in Hn' as ->.
           apply list_elem_of_fmap in Hn as (c & Hc & Hcin).
           apply Hcs in Hcin as (x & Hx & ->).
           apply Hnin, Hseen. exists x. split; [by apply firstOfName_elem |].
           symmetry. by apply (constantOf_name_inj prefix).
        -- apply NoDup_singleton.
Qed.

#[local] Instance const_le_trans : Transitive const_le.
Proof. intros a b c. unfold const_le. apply transitivity. Qed.

#[local] Instance const_le_total : Total const_le.
Proof. intros a b. unfold const_le. apply total, _. Qed.

Lemma find_pointwise {A} (P Q : A → bool) (l : list A) :
  (∀ x, P x = Q x) → List.find P l = List.find Q l.
Proof.
  intros Hpq. induction l as [| x l IH]; simpl; [done |].
  by rewrite Hpq, IH.
Qed.

(** Every field has a first field of its name, with the same name. *)
Lemma firstOfName_exists (l : list Field) (f : Field) :
  f ∈ l → ∃ g, firstOfName l g ∧ f_Name_exported g = f_Name_exported f.
Proof.
  intros Hf. unfold firstOfName.
  destruct (List.find (sameName f) l) as [g |] eqn:Hg.
  - pose proof (find_some _ _ Hg) as [_ Hname]. apply String.eqb_eq in Hname.
    exists g. split; [| done].
    rewrite <- Hg. apply find_pointwise. intros x. unfold sameName.
    by rewrite Hname.
  - apply list_elem_of_In in Hf. pose proof (find_none _ _ Hg f Hf) as Hno.
    unfold sameName in Hno. by rewrite String.eqb_refl in Hno.
Qed.

Lemma collectConstants_flat (kt : KeyType) :
  collectConstants kt
  = (fold_left (collectField (Prefix kt)) (flat_map o_Fields (Objects kt))
       ([], ∅)).1.
Proof. unfold collectConstants. by rewrite nested_fold_flat. Qed.

Lemma keyTypeConstants_elem (kt : KeyType) (c : Constant) :
  c ∈ keyTypeConstants kt
  ↔ ∃ f, firstOfName (groupFields kt) f ∧ c = constantOf (Prefix kt) f.
Proof.
  unfold keyTypeConstants, sortConstants.
  rewrite merge_sort_Permutation, collectConstants_flat.
  apply (collect_invariant (Prefix kt)).
Qed.

Lemma keyTypeConstants_NoDup (kt : KeyType) :
  NoDup (map c_Name (keyTypeConstants kt)).
Proof.
  unfold keyTypeConstants, sortConstants.
  change (map c_Name ?l) with (c_Name <$> l).
  rewrite merge_sort_Permutation, collectConstants_flat.
  apply (collect_invariant (Prefix kt)).
Qed.

Lemma keyTypeConstants_sorted (kt : KeyType) :
  StronglySorted const_le (keyTypeConstants kt).
Proof. apply StronglySorted_merge_sort; apply _. Qed.

Lemma keyTypeConstants_names (kt : KeyType) (n : string) :
  n ∈ map c_Name (keyTypeConstants kt)
  ↔ ∃ f, f ∈ groupFields kt ∧ n = Prefix kt ++ f_Name_exported f ++ "Key".
Proof.
  change (map c_Name ?l) with (c_Name <$> l). rewrite list_elem_of_fmap. split.
  - intros (c & -> & Hc). apply keyTypeConstants_elem in Hc as (f & Hf & ->).
    exists f. split; [by apply firstOfName_elem | done].
  - intros (f & Hf & ->). apply firstOfName_exists in Hf as (g & Hg & Hname).
    exists (constantOf (Prefix kt) g). split; [simpl; by rewrite Hname |].
    apply keyTypeConstants_elem. by exists g.
Qed.

(** C8: the constants of a key type are those of its non-standard
    fields, one per display name (that of the first field of the name),
    named [<prefix><Name>Key] with the field's JSON key as value; they
    are emitted sorted by name, without repetition; the names are the
    same for every order of the fields, and so are the values when
    fields of one name agree on their JSON key. *)
Theorem C8_constant_derivation (kt : KeyType) :
  (∀ c, c ∈ keyTypeConstants kt
        ↔ ∃ f, firstOfName (groupFields kt) f
               ∧ c = mkConstant (Prefix kt ++ f_Name_exported f ++ "Key")
                                (f_JSON f))
  ∧ (∀ f, f ∈ groupFields kt → f_is_std f = false)
  ∧ NoDup (map c_Name (keyTypeConstants kt))
  ∧ StronglySorted String.le (map c_Name (keyTypeConstants kt))
  ∧ (∀ fmt_q,
       emitConstants fmt_q (keyTypeConstants kt)
       = ([LL "const ("]
          ++ map (λ c, L (c_Name c ++ " = " ++ fmt_q (c_Value c)))
                 (keyTypeConstants kt)
          ++ [L ")"])%list)
  ∧ (∀ kt', Prefix kt' = Prefix kt →
            groupFields kt' ≡ₚ groupFields kt →
            map c_Name (keyTypeConstants kt') = map c_Name (keyTypeConstants kt))
  ∧ (∀ kt', Prefix kt' = Prefix kt →
            groupFields kt' ≡ₚ groupFields kt →
            (∀ f g, f ∈ groupFields kt → g ∈ groupFields kt →
                    f_Name_exported f = f_Name_exported g →
                    f_JSON f = f_JSON g) →
            keyTypeConstants kt' = keyTypeConstants kt).
Proof.
  assert (∀ k, StronglySorted String.le (map c_Name (keyTypeConstants k)))
    as Hsorted.
  { intros k. apply (StronglySorted_fmap c_Name const_le); [done |].
    apply keyTypeConstants_sorted. }
  split; [apply keyTypeConstants_elem |].
  split.
  { intros f Hf. unfold groupFields in Hf.
    apply list_elem_of_In, filter_In in Hf as [_ Hf].
    by apply negb_true_iff in Hf. }
  split; [apply keyTypeConstants_NoDup |].
  split; [apply Hsorted |].
  split; [done |].
  split.
  - intros kt' Hprefix Hperm.
    apply (StronglySorted_unique String.le _); [apply Hsorted .. |].
    apply NoDup_Permutation; [apply keyTypeConstants_NoDup .. |].
    intros n. rewrite !keyTypeConstants_names, Hprefix.
    by setoid_rewrite Hperm.
  - intros kt' Hprefix Hperm Hfun.
    assert (∀ c, c ∈ keyTypeConstants kt
                 ↔ ∃ f, f ∈ groupFields kt ∧ c = constantOf (Prefix kt) f)
      as Hkt.
    { intros c. rewrite keyTypeConstants_elem. split.
      - intros (f & Hf & ->). exists f. split; [by apply firstOfName_elem | done].
      - intros (f & Hf & ->).
        destruct (firstOfName_exists _ _ Hf) as (g & Hg & Hname).
        exists g. split; [done |]. unfold constantOf. rewrite Hname.
        f_equal. symmetry. apply Hfun; [by apply firstOfName_elem | done..]. }
    assert (∀ c, c ∈ keyTypeConstants kt'
                 ↔ ∃ f, f ∈ groupFields kt ∧ c = constantOf (Prefix kt) f)
      as Hkt'.
    { intros c. rewrite keyTypeConstants_elem, Hprefix. split.
      - intros (f & Hf & ->). exists f. split; [| done].
        rewrite <- Hperm. by apply firstOfName_elem.
      - intros (f & Hf & ->). rewrite <- Hperm in Hf.
        destruct (firstOfName_exists _ _ Hf) as (g & Hg & Hname).
        exists g. split; [done |]. unfold constantOf. rewrite Hname.
        f_equal. symmetry. apply Hfun; [| by rewrite <- Hperm | done].
        rewrite <- Hperm. by apply firstOfName_elem. }
    apply (StronglySorted_unique_strong const_le);
      [| apply keyTypeConstants_sorted .. |].
    + intros c1 c2 Hc1 Hc2 H12 H21.
      apply Hkt' in Hc1 as (f1 & Hf1 & ->). apply Hkt in Hc2 as (f2 & Hf2 & ->).
      assert (c_Name (constantOf (Prefix kt) f1)
              = c_Name (constantOf (Prefix kt) f2)) as Hname
        by (by apply (anti_symm String.le)).
      apply constantOf_name_inj in Hname.
      unfold constantOf. rewrite Hname. f_equal. by apply Hfun.
    + apply NoDup_Permutation.
      * eapply NoDup_fmap_1, keyTypeConstants_NoDup.
      * eapply NoDup_fmap_1, keyTypeConstants_NoDup.
      * intros c. by rewrite Hkt, Hkt'.
Qed.

Lemma C8_constant_derivation_witness :
  keyTypeConstants Example.rsaSwapped = keyTypeConstants Example.rsa.
Proof.
  refine (proj2 (proj2 (proj2 (proj2 (proj2 (proj2
    (C8_constant_derivation Example.rsa))))))
    Example.rsaSwapped eq_refl _ _).
  - apply (Permutation_app_comm
             [Example.fD; Example.fE; Example.fN] [Example.fE; Example.fN]).
  - intros f g Hf Hg.
    vm_compute in Hf, Hg.
    repeat (apply elem_of_cons in Hf as [-> | Hf]); [.. | by apply elem_of_nil in Hf];
      repeat (apply elem_of_cons in Hg as [-> | Hg]);
      try (by apply elem_of_nil in Hg); by vm_compute.
Defined.

(** ** Name collisions *)

Section Collisions.
Variable fmt_q : string → string.
Variable strings_ToLower : string → string.
Variable codegen_ZeroVal : string → string.
Variable WriteFile : string → list stmt → option string.

(** [generateObject] never returns an error. *)
Lemma generateObjects_no_error (kt : KeyType) (objs : list Object)
    (o : list stmt) (e : string) :
  generateObjects strings_ToLower codegen_ZeroVal kt objs o ≠ Err e.
Proof.
  revert o. induction objs as [| obj objs IH]; intros o; simpl; [done |].
  unfold generateObject. destruct (o_raw_key_type obj); [apply IH | done].
Qed.

Lemma generateObjects_ok (kt : KeyType) (objs : list Object) (o : list stmt) :
  (∀ obj, obj ∈ objs → is_Some (o_raw_key_type obj)) →
  ∃ o', generateObjects strings_ToLower codegen_ZeroVal kt objs o = Ok o'
        ∧ ∃ rest, o' = (o ++ rest)%list.
Proof.
  revert o. induction objs as [| obj objs IH]; intros o Hraw; simpl.
  - exists o. split; [done |]. exists []. by rewrite app_nil_r.
  - destruct (Hraw obj) as [raw Hobj]; [apply list_elem_of_here |].
    unfold generateObject. rewrite Hobj.
    match goal with
    | |- context [generateObjects _ _ _ _ (o ++ ?out)%list] =>
        destruct (IH (o ++ out)%list) as (o' & Hgen & rest & ->)
    end.
    { intros x Hx. apply Hraw. by apply list_elem_of_further. }
    eexists. split; [exact Hgen |].
    eexists. by rewrite <- app_assoc.
Qed.

(** Only a failing write makes [generateKeyType] return an error. *)
Lemma generateKeyType_error (kt : KeyType) (e : string) :
  generateKeyType fmt_q strings_ToLower codegen_ZeroVal WriteFile kt = Err e →
  ∃ o e', WriteFile (Filename kt) o = Some e'
          ∧ e = "failed to write to " ++ Filename kt ++ ": " ++ e'.
Proof.
  unfold generateKeyType.
  destruct (generateObjects _ _ _ _ _) as [o | e0 | p] eqn:Hgen.
  - destruct (WriteFile (Filename kt) o) as [e' |] eqn:Hw; [| done].
    intros [= <-]. by exists o, e'.
  - by apply generateObjects_no_error in Hgen.
  - done.
Qed.

Lemma generateKeyType_ok (kt : KeyType) :
  (∀ obj, obj ∈ Objects kt → is_Some (o_raw_key_type obj)) →
  (∀ o, WriteFile (Filename kt) o = None) →
  ∃ rest,
    generateKeyType fmt_q strings_ToLower codegen_ZeroVal WriteFile kt
    = Ok ([ L "// Code generated by tools/cmd/genjwk/main.go. DO NOT EDIT.";
            LL "package jwk" ]
          ++ emitConstants fmt_q (keyTypeConstants kt) ++ rest)%list.
Proof.
  intros Hraw Hw. unfold generateKeyType.
  destruct (generateObjects_ok kt (Objects kt)
              ([ L "// Code generated by tools/cmd/genjwk/main.go. DO NOT EDIT.";
                 LL "package jwk" ]
               ++ emitConstants fmt_q (keyTypeConstants kt))%list Hraw)
    as (o' & Hgen & rest & ->).
  rewrite Hgen, Hw. exists rest. by rewrite <- app_assoc.
Qed.

(** C3 (amended): when two distinct non-standard fields of a key type
    have the same constant name, constant derivation does not fail:
    there is exactly one constant of that name, its value is the JSON
    key of the first field of that display name, and [generateKeyType]
    returns an error only when writing the file fails; it returns nil,
    with the constants emitted, when every object has its
    [raw_key_type] and the write succeeds. *)
Theorem C3_collision_is_deduplicated (kt : KeyType) (f g : Field) :
  f ∈ groupFields kt → g ∈ groupFields kt → f ≠ g →
  c_Name (constantOf (Prefix kt) f) = c_Name (constantOf (Prefix kt) g) →
  (∃ f0, firstOfName (groupFields kt) f0
         ∧ f_Name_exported f0 = f_Name_exported f
         ∧ constantOf (Prefix kt) f0 ∈ keyTypeConstants kt
         ∧ ∀ c, c ∈ keyTypeConstants kt →
                c_Name c = c_Name (constantOf (Prefix kt) f) →
                c = constantOf (Prefix kt) f0)
  ∧ (∀ e, generateKeyType fmt_q strings_ToLower codegen_ZeroVal WriteFile kt
          = Err e →
          ∃ o e', WriteFile (Filename kt) o = Some e'
                  ∧ e = "failed to write to " ++ Filename kt ++ ": " ++ e')
  ∧ ((∀ obj, obj ∈ Objects kt → is_Some (o_raw_key_type obj)) →
     (∀ o, WriteFile (Filename kt) o = None) →
     ∃ rest,
       generateKeyType fmt_q strings_ToLower codegen_ZeroVal WriteFile kt
       = Ok ([ L "// Code generated by tools/cmd/genjwk/main.go. DO NOT EDIT.";
               LL "package jwk" ]
             ++ emitConstants fmt_q (keyTypeConstants kt) ++ rest)%list).
Proof.
  intros Hf Hg Hne Hname.
  split; [| split; [apply generateKeyType_error | apply generateKeyType_ok]].
  destruct (firstOfName_exists _ _ Hf) as (f0 & Hf0 & Hname0).
  exists f0. split; [done |]. split; [done |]. split.
  - apply keyTypeConstants_elem. by exists f0.
  - intros c Hc Hcname. apply keyTypeConstants_elem in Hc as (f1 & Hf1 & ->).
    apply constantOf_name_inj in Hcname.
    unfold firstOfName in Hf0, Hf1.
    rewrite (find_pointwise (sameName f1) (sameName f0)) in Hf1.
    + by simplify_eq.
    + intros x. unfold sameName. by rewrite Hcname, Hname0.
Qed.
End Collisions.

(** C3, as stated, fails: the two fields of [Example.colliding] are
    distinct, not standard, and both named [RSANKey]; [generateKeyType]
    returns nil. *)
Lemma C3_counterexample :
  ¬ (∀ (fmt_q strings_ToLower codegen_ZeroVal : string → string)
       (WriteFile : string → list stmt → option string)
       (kt : KeyType) (f g : Field),
       f ∈ groupFields kt → g ∈ groupFields kt → f ≠ g →
       c_Name (constantOf (Prefix kt) f) = c_Name (constantOf (Prefix kt) g) →
       ∃ e, generateKeyType fmt_q strings_ToLower codegen_ZeroVal WriteFile kt
            = Err e
            ∨ generateKeyType fmt_q strings_ToLower codegen_ZeroVal WriteFile kt
              = Panic e).
Proof.
  intros Hclaim.
  destruct (Hclaim quoted id id (λ _ _, None) Example.colliding
              Example.fN Example.fModulus) as (e & He).
  - apply list_elem_of_here.
  - apply list_elem_of_further, list_elem_of_here.
  - discriminate.
  - reflexivity.
  - destruct (generateKeyType_ok quoted id id (λ _ _, None) Example.colliding)
      as (rest & Hok).
    + intros obj Hobj.
      repeat (apply elem_of_cons in Hobj as [-> | Hobj]); [by eexists .. |].
      by apply elem_of_nil in Hobj.
    + done.
    + rewrite Hok in He. by destruct He.
Qed.

Lemma C3_collision_is_deduplicated_witness :
  ∃ f0, firstOfName (groupFields Example.colliding) f0
        ∧ f_Name_exported f0 = "N"
        ∧ constantOf "RSA" f0 ∈ keyTypeConstants Example.colliding
        ∧ ∀ c, c ∈ keyTypeConstants Example.colliding →
               c_Name c = "RSANKey" → c = constantOf "RSA" f0.
Proof.
  refine (proj1 (C3_collision_is_deduplicated quoted id id (λ _ _, None)
                   Example.colliding Example.fN Example.fModulus _ _ _ _)).
  - apply list_elem_of_here.
  - apply list_elem_of_further, list_elem_of_here.
  - discriminate.
  - reflexivity.
Defined.
